(** * Red Sky optimize-controller: API types, deep copies, API client and
      trial lifecycle

    A shallow embedding of
    - [src/unnamed/part_000] (package [redskyapi]: the API client),
    - [src/unnamed/part_001] and [src/pkg/apis/redsky/v1alpha1/trial_types.go]
      (the experiment and trial types),
    - [src/api/v1alpha1/zz_generated.deepcopy.go] (the generated deep copies),
    together with a model of the trial lifecycle controller, which is not
    part of the sources at hand and is written from the design document. *)

From Stdlib Require Import ZArith String List Lia.
From Stdlib Require Import Strings.Byte.
From stdpp Require Import base tactics option list numbers.

Open Scope Z_scope.
Open Scope string_scope.

(** ** Go base types *)

(** [string] is immutable in Go, [int], [int32] and [int64] are integers of
    fixed width (kept in [Z], no arithmetic here overflows), [[]byte] holds
    [Byte.byte]. [metav1.Time] is copied by plain assignment and is kept
    as the instant it denotes. *)
Definition Time := Z.

(** [corev1.ObjectReference]: seven string fields. *)
Record ObjectReference := mkObjectReference {
  ref_Kind : string;
  ref_Namespace : string;
  ref_Name : string;
  ref_UID : string;
  ref_APIVersion : string;
  ref_ResourceVersion : string;
  ref_FieldPath : string }.

(** [intstr.IntOrString] *)
Record IntOrString := mkIntOrString {
  ios_Type : Z;
  ios_IntVal : Z;
  ios_StrVal : string }.

(** ** Package [redskyapi]: the API client *)
Module redskyapi.

(** The Go [error] interface; [nil] is [None]. [Canceled] and
    [DeadlineExceeded] are the two errors of package [context]. *)
Inductive error :=
| Canceled
| DeadlineExceeded
| Err (msg : string).

(** [context.Context]; a [nil] context is [None]. *)
Record Context := mkContext { ctx_name : string }.

(** [url.URL] *)
Record url_URL := mkURL { url_String : string }.

Record Request := mkRequest {
  req_Method : string;
  req_URL : string;
  req_ctx : option Context }.

(** [req.WithContext(ctx)] *)
Definition WithContext (ctx : Context) (req : Request) : Request :=
  {| req_Method := req_Method req; req_URL := req_URL req; req_ctx := Some ctx |}.

Record Response := mkResponse {
  resp_StatusCode : Z;
  resp_Body : string (* names the body stream *) }.

Record RoundTripper := mkRoundTripper { rt_name : string }.

(** The [Config] interface, as [NewClient] and [URL] use it. *)
Record Config := mkConfig {
  ExperimentsURL : string -> option url_URL * option error;
  Authorize : option Context -> option RoundTripper -> option RoundTripper * option error }.

(** [http.Client], the two fields set by [NewClient]; [Timeout] in
    nanoseconds. *)
Record http_Client := mkHttpClient {
  Timeout : Z;
  Transport : option RoundTripper }.

Record httpClient := mkClient {
  config : Config;
  client : http_Client }.

Definition Second : Z := 1000000000.

(** [NewClient]: the result is the pair (client, error). *)
Definition NewClient (cfg : Config) (ctx : option Context) (transport : option RoundTripper)
  : option httpClient * option error :=
  match Authorize cfg ctx transport with
  | (_, Some err) => (None, Some err)
  | (tr, None) =>
      match ExperimentsURL cfg EmptyString with
      | (_, Some err) => (None, Some err)
      | (_, None) =>
          (Some {| config := cfg; client := {| Timeout := 10 * Second; Transport := tr |} |}, None)
      end
  end.

(** [httpClient.URL] *)
Definition URL (c : httpClient) (ep : string) : option url_URL :=
  let '(u, _) := ExperimentsURL (config c) ep in u.

(** What [Do] meets outside itself: the round trip of the underlying
    [http.Client], the read of the body by the spawned goroutine, the
    explicit [Close] of the body, and the order in which the two channels
    of the [select] become ready. The client built by [NewClient] has a
    [Timeout], which in [net/http] covers the reading of the body: the
    read returns. *)
Inductive Race :=
| CtxDoneFirst (why : error)  (* [ctx.Done()] is closed first; [why] is then [ctx.Err()] *)
| ReadDoneFirst.              (* [done] is closed first *)

Record World := mkWorld {
  client_Do : Request -> option Response * option error;
  ReadAll : Response -> option (list byte) * option error;
  Body_Close : Response -> option error;
  race : Race }.

Inductive Effect :=
| RoundTrip (req : Request)
| GoReadAll (resp : Response)
| Close (resp : Response)
| DeferredClose (resp : Response).

Inductive Outcome :=
| Returned (resp : option Response) (body : option (list byte)) (err : option error)
| Panicked.

(** [if ctx != nil { req = req.WithContext(ctx) }] *)
Definition sent (ctx : option Context) (req : Request) : Request :=
  match ctx with Some c => WithContext c req | None => req end.

(** [httpClient.Do]: the outcome and the calls made, in order. A [nil]
    slice is [None]. *)
Definition Do (w : World) (ctx : option Context) (req : Request) : Outcome * list Effect :=
  let req := sent ctx req in
  match client_Do w req with
  | (_, Some err) => (Returned None None (Some err), [RoundTrip req])
  | (None, None) => (Panicked, [RoundTrip req])  (* [resp.Body] on a nil response *)
  | (Some resp, None) =>
      let '(body, rerr) := ReadAll w resp in
      match ctx with
      | None =>
          (* the [select] evaluates [ctx.Done()] on a nil interface *)
          (Panicked, [RoundTrip req; GoReadAll resp; DeferredClose resp])
      | Some c =>
          match race w with
          | CtxDoneFirst why =>
              let err := Body_Close w resp in
              let err := match err with None => Some why | Some e => Some e end in
              (Returned (Some resp) body err,
               [RoundTrip req; GoReadAll resp; Close resp; DeferredClose resp])
          | ReadDoneFirst =>
              (Returned (Some resp) body rerr,
               [RoundTrip req; GoReadAll resp; DeferredClose resp])
          end
      end
  end.

(** *** Examples *)

Definition example_request : Request := mkRequest "GET" "https://api/experiments/" None.

Definition example_context : Context := mkContext "trial".

Definition example_response : Response := mkResponse 200 "body".

(** The context is cancelled while the body is being read; closing the
    body succeeds. *)
Definition cancelled_world : World :=
  mkWorld (fun _ => (Some example_response, None))
    (fun _ => (Some [x7b], Some Canceled))
    (fun _ => None)
    (CtxDoneFirst Canceled).

(** The round trip fails. *)
Definition down_world : World :=
  mkWorld (fun _ => (None, Some (Err "connection refused")))
    (fun _ => (None, None))
    (fun _ => None)
    ReadDoneFirst.

(** The body is read to its end before the context is done; closing the
    body fails, which only the deferred call meets. *)
Definition finished_world : World :=
  mkWorld (fun _ => (Some example_response, None))
    (fun _ => (Some [x7b; x7d], None))
    (fun _ => Some (Err "already closed"))
    ReadDoneFirst.

(** [Authorize] hands the transport on; only the empty endpoint has a
    URL. *)
Definition example_config : Config :=
  mkConfig
    (fun ep => match ep with
               | EmptyString => (Some (mkURL "https://api/experiments/"), None)
               | _ => (None, Some (Err "invalid endpoint"))
               end)
    (fun _ tr => (tr, None)).

(** [Authorize] fails, and so would [ExperimentsURL]. *)
Definition failing_config : Config :=
  mkConfig (fun _ => (None, Some (Err "no address")))
    (fun _ _ => (None, Some (Err "no credentials"))).

End redskyapi.

(** ** Package [v1alpha1] of [pkg/apis/redsky]: experiment and trial types

    Values of the Kubernetes libraries ([metav1.LabelSelector],
    [metav1.ObjectMeta], [batchv1beta1.JobTemplateSpec], [corev1.Volume],
    [corev1.VolumeMount]) are carried along by their serialised form. *)
Module v1alpha1.

Record K8s := mkK8s { k8s_json : string }.

(** [Parameter] ([Parameter] itself is a keyword here) *)
Record ExperimentParameter := mkParameter {
  Parameter_Name : string;
  Min : Z;
  Max : Z }.

(** [type MetricType string] *)
Definition MetricType := string.
Definition MetricLocal : MetricType := "local".
Definition MetricPrometheus : string := "prometheus".
Definition MetricJSONPath : string := "jsonpath".

Record Metric := mkMetric {
  Metric_Name : string;
  Minimize : bool;
  Metric_Type : MetricType;
  Query : string;
  Metric_Selector : option K8s;
  Port : IntOrString;
  Path : string }.

Record PatchTemplate := mkPatchTemplate {
  PatchTemplate_Type : string;
  Patch : string;
  PatchTemplate_TargetRef : ObjectReference;
  PatchTemplate_Selector : option K8s }.

Record ParameterSelector := mkParameterSelector { ParameterSelector_Name : string }.

Record HelmValueSource := mkHelmValueSource { ParameterRef : option ParameterSelector }.

Record HelmValue := mkHelmValue {
  HelmValue_Name : string;
  ForceString : bool;
  HelmValue_Value : IntOrString;
  ValueFrom : option HelmValueSource }.

Record ConfigMapHelmValuesFromSource := mkConfigMapRef { LocalObjectReference_Name : string }.

Record HelmValuesFromSource := mkHelmValuesFromSource {
  ConfigMap : option ConfigMapHelmValuesFromSource }.

Record SetupTask := mkSetupTask {
  SetupTask_Name : string;
  Image : string;
  SkipCreate : bool;
  SkipDelete : bool;
  VolumeMounts : list K8s;
  HelmChart : string;
  HelmValues : list HelmValue;
  HelmValuesFrom : list HelmValuesFromSource }.

Record PatchOperation := mkPatchOperation {
  TargetRef : ObjectReference;
  PatchType : string;
  Data : list byte;
  PatchOperation_AttemptsRemaining : Z }.

Record Assignment := mkAssignment {
  Assignment_Name : string;
  Assignment_Value : Z }.

Record Value := mkValue {
  Value_Name : string;
  Value_Value : string;
  Value_Error : string;
  Value_AttemptsRemaining : Z }.

(** [type TrialConditionType string] *)
Definition TrialConditionType := string.
Definition TrialComplete : TrialConditionType := "Complete".
Definition TrialFailed : string := "Failed".

(** [corev1.ConditionStatus] *)
Definition ConditionStatus := string.
Definition ConditionTrue : ConditionStatus := "True".
Definition ConditionFalse : ConditionStatus := "False".
Definition ConditionUnknown : ConditionStatus := "Unknown".

Record TrialCondition := mkTrialCondition {
  Condition_Type : TrialConditionType;
  Condition_Status : ConditionStatus;
  LastProbeTime : Time;
  LastTransitionTime : Time;
  Reason : string;
  Message : string }.

Record TrialSpec := mkTrialSpec {
  ExperimentRef : option ObjectReference;
  TargetNamespace : string;
  Assignments : list Assignment;
  Selector : option K8s;
  Template : option K8s;
  StartTimeOffset : option Z;
  ApproximateRuntime : option Z;
  Values : list Value;
  PatchOperations : list PatchOperation;
  SetupTasks : list SetupTask;
  SetupVolumes : list K8s;
  SetupServiceAccountName : string }.

Record TrialStatus := mkTrialStatus {
  Status_Assignments : string;
  Status_Values : string;
  StartTime : option Time;
  CompletionTime : option Time;
  Conditions : list TrialCondition }.

Record Trial := mkTrial {
  TypeMeta : string * string;
  ObjectMeta : K8s;
  Spec : TrialSpec;
  Status : TrialStatus }.

Record ExperimentSpec := mkExperimentSpec {
  Replicas : option Z;
  Parallelism : option Z;
  Parameters : list ExperimentParameter;
  Metrics : list Metric;
  Patches : list PatchTemplate;
  NamespaceSelector : option K8s;
  ExperimentSpec_Selector : option K8s;
  ExperimentSpec_Template : K8s * TrialSpec }.

End v1alpha1.

(** ** The trial lifecycle controller

    The controller (patch resolver, metric collector, state machine) is not
    among the sources; the definitions of this module follow sections 4.1,
    4.4, 4.5 and 7 of the design document. *)
Module Lifecycle.
Import v1alpha1.

Inductive Phase :=
| Pending | Patching | AwaitingSetup | AwaitingReady | Running
| Measuring | SettingDown | Complete | Failed.

(** Configured bounds. *)
Record Settings := mkSettings {
  maxPatchAttempts : nat;
  maxMetricAttempts : nat;
  maxReadinessPolls : nat }.

(** The pluggable evaluators: the patch template engine and the template
    engine of local metrics. [None] is an evaluation failure. *)
Record Evaluators := mkEvaluators {
  render : string -> list Assignment -> option (list byte);
  evalLocal : string -> Trial -> option string }.

(** What a metric endpoint answers to a query: a failure of the transport,
    or a list of samples (value, error band). *)
Inductive Fetch :=
| FetchFailed
| Samples (pts : list (string * string)).

Inductive ServiceCall :=
| PromQuery (path query : string)
| JSONGet (path : string).

Definition Service := ServiceCall -> Fetch.

Inductive Collected :=
| Observed (value error : string)
| Transient
| DataShape.

(** Modelled from the spec: the result of a query must reduce to a single
    scalar (section 4.4); this part of the collector is missing from the
    sources. *)
Definition reduce (f : Fetch) : Collected :=
  match f with
  | FetchFailed => Transient
  | Samples [(v, e)] => Observed v e
  | Samples _ => DataShape
  end.

(** Modelled from the spec: the metric collector of section 4.4, which is
    missing from the sources. It returns what was collected and the calls
    made to the matched service. A type outside the three known ones is a
    malformed metric (non-retryable). *)
Definition collect (ev : Evaluators) (m : Metric) (t : Trial) (svc : Service)
  : Collected * list ServiceCall :=
  if String.eqb (Metric_Type m) MetricLocal then
    (match evalLocal ev (Query m) t with
     | Some v => Observed v EmptyString
     | None => DataShape
     end, [])
  else if String.eqb (Metric_Type m) MetricPrometheus then
    let call := PromQuery (Path m) (Query m) in (reduce (svc call), [call])
  else if String.eqb (Metric_Type m) MetricJSONPath then
    let call := JSONGet (Path m) in (reduce (svc call), [call])
  else (DataShape, []).

Inductive Readiness := Ready | NotReady | TimedOut.

(** What happens to a trial: outcomes of the external capabilities and
    signals of the surrounding orchestration. *)
Inductive Event :=
| Admit
| Applied (i : nat) (ok : bool)
| Advance
| SetupCreate (ok : bool)
| Polled (r : Readiness)
| JobCompleted
| Scraped (i : nat) (svc : Service)
| SetupDelete (ok : bool)
| Note (reason message : string).

Record State := mkState {
  phase : Phase;
  trial : Trial;
  metrics : list Metric;
  patches : list PatchTemplate;
  fatal : option (string * string);
  polls : nat }.

Definition set_PatchOperations (ops : list PatchOperation) (t : Trial) : Trial :=
  let s := Spec t in
  mkTrial (TypeMeta t) (ObjectMeta t)
    (mkTrialSpec (ExperimentRef s) (TargetNamespace s) (Assignments s) (Selector s)
       (Template s) (StartTimeOffset s) (ApproximateRuntime s) (Values s) ops
       (SetupTasks s) (SetupVolumes s) (SetupServiceAccountName s))
    (Status t).

Definition set_Values (vs : list Value) (t : Trial) : Trial :=
  let s := Spec t in
  mkTrial (TypeMeta t) (ObjectMeta t)
    (mkTrialSpec (ExperimentRef s) (TargetNamespace s) (Assignments s) (Selector s)
       (Template s) (StartTimeOffset s) (ApproximateRuntime s) vs (PatchOperations s)
       (SetupTasks s) (SetupVolumes s) (SetupServiceAccountName s))
    (Status t).

Definition add_Condition (c : TrialCondition) (t : Trial) : Trial :=
  let st := Status t in
  mkTrial (TypeMeta t) (ObjectMeta t) (Spec t)
    (mkTrialStatus (Status_Assignments st) (Status_Values st) (StartTime st)
       (CompletionTime st) (Conditions st ++ [c])).

Definition with_trial (t : Trial) (s : State) : State :=
  mkState (phase s) t (metrics s) (patches s) (fatal s) (polls s).

Definition with_phase (p : Phase) (s : State) : State :=
  mkState p (trial s) (metrics s) (patches s) (fatal s) (polls s).

Definition with_fatal (reason message : string) (s : State) : State :=
  mkState (phase s) (trial s) (metrics s) (patches s)
    (match fatal s with Some f => Some f | None => Some (reason, message) end) (polls s).

Definition with_polls (n : nat) (s : State) : State :=
  mkState (phase s) (trial s) (metrics s) (patches s) (fatal s) n.

(** A condition of type Complete or Failed with status True. *)
Definition is_final (c : TrialCondition) : bool :=
  (String.eqb (Condition_Type c) TrialComplete || String.eqb (Condition_Type c) TrialFailed)
  && String.eqb (Condition_Status c) ConditionTrue.

Definition terminal (t : Trial) : bool := existsb is_final (Conditions (Status t)).

(** An informational condition: never of status True. *)
Definition note (now : Time) (reason message : string) (s : State) : State :=
  with_trial (add_Condition
    (mkTrialCondition TrialFailed ConditionFalse now now reason message) (trial s)) s.

Definition fail (now : Time) (reason message : string) (s : State) : State :=
  with_phase Failed (with_trial (add_Condition
    (mkTrialCondition TrialFailed ConditionTrue now now reason message) (trial s)) s).

Definition complete (now : Time) (s : State) : State :=
  with_phase Complete (with_trial (add_Condition
    (mkTrialCondition TrialComplete ConditionTrue now now "Completed" EmptyString) (trial s)) s).

(** Modelled from the spec: the patch resolver of section 4.1, which is
    missing from the sources. One operation per template; a template that
    does not evaluate gives an operation whose counter is exhausted at once. *)
Definition resolve (ev : Evaluators) (cfg : Settings) (asg : list Assignment)
  (p : PatchTemplate) : PatchOperation :=
  match render ev (Patch p) asg with
  | Some data => mkPatchOperation (PatchTemplate_TargetRef p) (PatchTemplate_Type p) data
                   (Z.of_nat (maxPatchAttempts cfg))
  | None => mkPatchOperation (PatchTemplate_TargetRef p) (PatchTemplate_Type p) [] 0
  end.

Definition resolves (ev : Evaluators) (asg : list Assignment) (p : PatchTemplate) : bool :=
  match render ev (Patch p) asg with Some _ => true | None => false end.

Definition set_patch_attempts (n : Z) (op : PatchOperation) : PatchOperation :=
  mkPatchOperation (TargetRef op) (PatchType op) (Data op) n.

Definition set_value_attempts (n : Z) (v : Value) : Value :=
  mkValue (Value_Name v) (Value_Value v) (Value_Error v) n.

Definition patch_done (op : PatchOperation) : bool := Z.eqb (PatchOperation_AttemptsRemaining op) 0.
Definition value_done (v : Value) : bool := Z.eqb (Value_AttemptsRemaining v) 0.

(** Modelled from the spec: the retry accounting of the patch resolver
    (section 4.1), missing from the sources. The outcome of one attempt to
    apply operation [i]: success sets the counter to 0, failure decrements
    it, and a counter that reaches 0 without success fails the trial; an
    operation without attempts left is not attempted. *)
Definition apply_patch (now : Time) (i : nat) (ok : bool) (s : State) : State :=
  let ops := PatchOperations (Spec (trial s)) in
  match ops !! i with
  | None => s
  | Some op =>
      let n := PatchOperation_AttemptsRemaining op in
      if Z.leb n 0 then s
      else if ok then
        with_trial (set_PatchOperations (<[i := set_patch_attempts 0 op]> ops) (trial s)) s
      else
        let s' := with_trial
          (set_PatchOperations (<[i := set_patch_attempts (n - 1) op]> ops) (trial s)) s in
        if Z.eqb (n - 1) 0 then fail now "PatchFailed" "patch attempts exhausted" s' else s'
  end.

(** Modelled from the spec: the retry accounting of the metric collector
    (sections 4.4 and 7), missing from the sources. One attempt to collect
    metric [i]: success records the value and sets the counter to 0, a
    transient failure decrements it, a data-shape error exhausts it at
    once; exhaustion is fatal for the trial, which is marked when the
    teardown ends. *)
Definition scrape (ev : Evaluators) (i : nat) (svc : Service) (s : State) : State :=
  let vs := Values (Spec (trial s)) in
  match vs !! i, metrics s !! i with
  | Some v, Some m =>
      let n := Value_AttemptsRemaining v in
      if Z.leb n 0 then s
      else match fst (collect ev m (trial s) svc) with
      | Observed x e =>
          with_trial (set_Values (<[i := mkValue (Value_Name v) x e 0]> vs) (trial s)) s
      | Transient =>
          let s' := with_trial
            (set_Values (<[i := set_value_attempts (n - 1) v]> vs) (trial s)) s in
          if Z.eqb (n - 1) 0 then with_fatal "MetricFailed" "metric attempts exhausted" s' else s'
      | DataShape =>
          with_fatal "MetricFailed" "metric result is not a single scalar"
            (with_trial (set_Values (<[i := set_value_attempts 0 v]> vs) (trial s)) s)
      end
  | _, _ => s
  end.

(** Modelled from the spec: the state machine of section 4.5, which is
    missing from the sources. *)
Definition step (ev : Evaluators) (cfg : Settings) (now : Time) (e : Event) (s : State) : State :=
  if terminal (trial s) then
    match e with
    | Note reason message => note now reason message s
    | SetupDelete false => note now "SetupDeleteFailed" "late setup delete failure" s
    | _ => s
    end
  else
    match phase s, e with
    | _, Note reason message => note now reason message s
    | Pending, Admit =>
        let asg := Assignments (Spec (trial s)) in
        let s' := with_phase Patching
          (with_trial (set_PatchOperations (map (resolve ev cfg asg) (patches s)) (trial s)) s) in
        if forallb (resolves ev asg) (patches s) then s'
        else fail now "PatchFailed" "patch template evaluation failed" s'
    | Patching, Applied i ok => apply_patch now i ok s
    | Patching, Advance =>
        if forallb patch_done (PatchOperations (Spec (trial s)))
        then with_phase AwaitingSetup s else s
    | AwaitingSetup, SetupCreate ok =>
        if ok then with_phase AwaitingReady s
        else fail now "SetupFailed" "setup task creation failed" s
    | AwaitingSetup, Advance =>
        match SetupTasks (Spec (trial s)) with
        | [] => with_phase AwaitingReady s
        | _ => s
        end
    | AwaitingReady, Polled Ready => with_phase Running s
    | AwaitingReady, Polled NotReady => s
    | AwaitingReady, Polled TimedOut =>
        match polls s with
        | O | S O => fail now "ReadinessTimeout" "readiness polling exhausted" (with_polls 0 s)
        | S n => with_polls n s
        end
    | Running, JobCompleted =>
        with_phase Measuring (with_trial (set_Values
          (map (fun m => mkValue (Metric_Name m) EmptyString EmptyString
                           (Z.of_nat (maxMetricAttempts cfg))) (metrics s)) (trial s)) s)
    | Measuring, Scraped i svc => scrape ev i svc s
    | Measuring, Advance =>
        if forallb value_done (Values (Spec (trial s)))
        then with_phase SettingDown s else s
    | SettingDown, SetupDelete ok =>
        let s' := if ok then s
                  else note now "SetupDeleteFailed" "setup task deletion failed" s in
        match fatal s' with
        | Some (reason, message) => fail now reason message s'
        | None => complete now s'
        end
    | _, _ => s
    end.

Fixpoint run (ev : Evaluators) (cfg : Settings) (inputs : list (Time * Event)) (s : State) : State :=
  match inputs with
  | [] => s
  | (now, e) :: rest => run ev cfg rest (step ev cfg now e s)
  end.

(** A trial as admitted: created from the experiment's template and the
    supplied assignments, nothing resolved or measured yet. *)
Definition admitted (cfg : Settings) (ms : list Metric) (ps : list PatchTemplate)
  (t : Trial) : State :=
  mkState Pending (set_Values [] (set_PatchOperations [] t)) ms ps None (maxReadinessPolls cfg).


Definition value_counters (s : State) : list Z :=
  map Value_AttemptsRemaining (Values (Spec (trial s))).




(** A condition of type Complete with status True. *)
Definition is_complete (c : TrialCondition) : bool :=
  String.eqb (Condition_Type c) TrialComplete && String.eqb (Condition_Status c) ConditionTrue.

Definition completed (t : Trial) : bool := existsb is_complete (Conditions (Status t)).

(** A condition of type Failed with status True. *)
Definition is_failed (c : TrialCondition) : bool :=
  String.eqb (Condition_Type c) TrialFailed && String.eqb (Condition_Status c) ConditionTrue.

Definition failed (t : Trial) : bool := existsb is_failed (Conditions (Status t)).

(** What keeps a trial from ever completing: it is terminal without being
    complete, or a metric is fatally exhausted and the measurement or the
    teardown is under way. *)
Definition doomed (s : State) : Prop :=
  completed (trial s) = false /\ phase s <> Complete /\
  (terminal (trial s) = true \/
   (is_Some (fatal s) /\ (phase s = Measuring \/ phase s = SettingDown))).

(** *** Examples *)

(** Templates are their own rendering; the empty template does not
    evaluate. The local query is answered by the trial namespace. *)
Definition example_evaluators : Evaluators :=
  mkEvaluators
    (fun tpl _ => match tpl with EmptyString => None | _ => Some (list_byte_of_string tpl) end)
    (fun q t => Some (TargetNamespace (Spec t))).

Definition example_settings : Settings := mkSettings 1 3 2.

Definition no_reference : ObjectReference :=
  mkObjectReference EmptyString EmptyString EmptyString EmptyString EmptyString
    EmptyString EmptyString.

Definition example_trial : Trial :=
  mkTrial ("Trial", "redskyops.dev/v1alpha1") (mkK8s "{}")
    (mkTrialSpec None "default" [mkAssignment "replicas" 3] None None None None [] [] [] []
       EmptyString)
    (mkTrialStatus EmptyString EmptyString None None []).

Definition example_patch : PatchTemplate :=
  mkPatchTemplate "json" "[{op: replace}]" no_reference None.

Definition duration_metric : Metric :=
  mkMetric "duration" true MetricLocal "duration" None (mkIntOrString 0 0 EmptyString)
    EmptyString.

Definition latency_metric : Metric :=
  mkMetric "latency" true MetricPrometheus "latency_seconds" None
    (mkIntOrString 0 9090 EmptyString) "/".

(** A metric written without a type: the field is tagged [omitempty], and
    its zero value is the empty string. *)
Definition untyped_metric : Metric :=
  mkMetric "throughput" false EmptyString "throughput" None (mkIntOrString 0 0 EmptyString)
    EmptyString.

(** A service that answers every query with a vector of three points. *)
Definition three_points : Service :=
  fun _ => Samples [("0.1", EmptyString); ("0.2", EmptyString); ("0.3", EmptyString)].

Definition unreachable : Service := fun _ => FetchFailed.

(** A trial with one patch, admitted. *)
Definition example_patching : State :=
  run example_evaluators example_settings [(0, Admit)]
    (admitted example_settings [] [example_patch] example_trial).

(** The same trial after its only attempt to apply the patch has failed. *)
Definition example_failed : State :=
  step example_evaluators example_settings 1 (Applied 0 false) example_patching.

(** A trial with the metric [latency], its job done. *)
Definition example_measuring : State :=
  run example_evaluators example_settings
    [(0, Admit); (1, Advance); (2, Advance); (3, Polled Ready); (4, JobCompleted)]
    (admitted example_settings [latency_metric] [] example_trial).

End Lifecycle.

(** ** Package [v1alpha1] of [api]: the generated deep copies

    Here memory matters. A pointer or a slice is the address of a heap cell
    ([None] is [nil]); a cell holds the backing array of a slice, or the one
    value a pointer points to. (A slice is its whole backing array: windows
    into a larger array, spare capacity and pointers into the middle of an
    array are not represented.) Each struct is declared once, over the
    representation [P] of its pointers and slices: [ref] in memory, [option]
    for the value it denotes ([None] is [nil], [Some []] an empty slice).
    Fields are those of [trial_types.go] and [part_001], with the pointer
    and slice fields the generated code reveals. *)
Module deepcopy.

#[local] Open Scope list_scope.
#[local] Open Scope nat_scope.

Abbreviation loc := nat.

(** A pointer or slice in memory; the type it points to is a phantom. *)
Definition ref (T : Type) : Type := option loc.

(** Types of the Kubernetes libraries, whose deep copies are the
    libraries' own. *)
Inductive Kind :=
| ObjectMeta | ListMeta | LabelSelector | JobTemplateSpec | VolumeMount
| Volume | PolicyRule | NamespaceSpec | Quantity.

(** The fields of a struct that hold no pointer, where the declaration of
    the struct is not at hand: the generated code copies them with
    [*out = *in]. *)
Record Scalars := mkScalars { scalar_fields : list (string * IntOrString) }.

Record PatchOperation (P : Type -> Type) := mkPatchOperation {
  TargetRef : ObjectReference;
  PatchType : string;
  Data : P (list byte);
  AttemptsRemaining : Z }.

Record HelmValueSource (P : Type -> Type) := mkHelmValueSource {
  ParameterRef : P v1alpha1.ParameterSelector }.

Record HelmValue (P : Type -> Type) := mkHelmValue {
  HelmValue_Name : string;
  ForceString : bool;
  HelmValue_Value : IntOrString;
  ValueFrom : P (HelmValueSource P) }.

Record HelmValuesFromSource (P : Type -> Type) := mkHelmValuesFromSource {
  ConfigMap : P v1alpha1.ConfigMapHelmValuesFromSource }.

Record SetupTask (P : Type -> Type) (E : Kind -> Type) := mkSetupTask {
  SetupTask_Name : string;
  Image : string;
  SkipCreate : bool;
  SkipDelete : bool;
  Command : P (list string);
  Args : P (list string);
  VolumeMounts : P (list (E VolumeMount));
  HelmChart : string;
  HelmValues : P (list (HelmValue P));
  HelmValuesFrom : P (list (HelmValuesFromSource P)) }.

Record TrialReadinessGate (P : Type -> Type) (E : Kind -> Type) := mkTrialReadinessGate {
  Gate_rest : Scalars;
  Gate_Selector : P (E LabelSelector);
  Gate_ConditionTypes : P (list string) }.

Record ReadinessCheck (P : Type -> Type) (E : Kind -> Type) := mkReadinessCheck {
  Check_rest : Scalars;
  Check_TargetRef : ObjectReference;
  Check_Selector : P (E LabelSelector);
  Check_ConditionTypes : P (list string);
  LastCheckTime : P Time }.

Record TrialSpec (P : Type -> Type) (E : Kind -> Type) := mkTrialSpec {
  ExperimentRef : P ObjectReference;
  TargetNamespace : string;
  Assignments : P (list v1alpha1.Assignment);
  Selector : P (E LabelSelector);
  Template : P (E JobTemplateSpec);
  StartTimeOffset : P Z;
  ApproximateRuntime : P Z;
  TTLSecondsAfterFinished : P Z;
  TTLSecondsAfterFailure : P Z;
  ReadinessGates : P (list (TrialReadinessGate P E));
  PatchOperations : P (list (PatchOperation P));
  ReadinessChecks : P (list (ReadinessCheck P E));
  Values : P (list v1alpha1.Value);
  SetupTasks : P (list (SetupTask P E));
  SetupVolumes : P (list (E Volume));
  SetupServiceAccountName : string;
  SetupDefaultRules : P (list (E PolicyRule)) }.

Record TrialStatus (P : Type -> Type) := mkTrialStatus {
  Status_Assignments : string;
  Status_Values : string;
  StartTime : P Time;
  CompletionTime : P Time;
  Conditions : P (list v1alpha1.TrialCondition) }.

Record Trial (P : Type -> Type) (E : Kind -> Type) := mkTrial {
  TypeMeta : string * string;
  Trial_ObjectMeta : E ObjectMeta;
  Spec : TrialSpec P E;
  Status : TrialStatus P }.

Record TrialList (P : Type -> Type) (E : Kind -> Type) := mkTrialList {
  TrialList_TypeMeta : string * string;
  TrialList_ListMeta : E ListMeta;
  TrialList_Items : P (list (Trial P E)) }.

Record TrialTemplateSpec (P : Type -> Type) (E : Kind -> Type) := mkTrialTemplateSpec {
  TrialTemplate_ObjectMeta : E ObjectMeta;
  TrialTemplate_Spec : TrialSpec P E }.

(** The experiment side. *)
Record SumConstraintParameter (E : Kind -> Type) := mkSumConstraintParameter {
  SumParameter_rest : Scalars;
  Weight : E Quantity }.

Record SumConstraint (P : Type -> Type) (E : Kind -> Type) := mkSumConstraint {
  Sum_rest : Scalars;
  Bound : E Quantity;
  Sum_Parameters : P (list (SumConstraintParameter E)) }.

Record Constraint (P : Type -> Type) (E : Kind -> Type) := mkConstraint {
  Constraint_rest : Scalars;
  Order : P Scalars;  (* [*OrderConstraint], a struct without pointers *)
  Sum : P (SumConstraint P E) }.

Record Metric (P : Type -> Type) (E : Kind -> Type) := mkMetric {
  Metric_Name : string;
  Minimize : bool;
  Metric_Type : string;
  Query : string;
  Metric_Selector : P (E LabelSelector);
  Port : IntOrString;
  Path : string }.

Record NamespaceTemplateSpec (E : Kind -> Type) := mkNamespaceTemplateSpec {
  NamespaceTemplate_ObjectMeta : E ObjectMeta;
  NamespaceTemplate_Spec : E NamespaceSpec }.

Record PatchTemplate (P : Type -> Type) := mkPatchTemplate {
  PatchTemplate_rest : Scalars;
  PatchTemplate_TargetRef : P ObjectReference;
  PatchTemplate_ReadinessGates : P (list Scalars) (* [[]PatchReadinessGate] *) }.

Record ExperimentSpec (P : Type -> Type) (E : Kind -> Type) := mkExperimentSpec {
  ExperimentSpec_rest : Scalars;
  Replicas : P Z;
  Optimization : P (list Scalars);
  Parameters : P (list v1alpha1.ExperimentParameter);
  Constraints : P (list (Constraint P E));
  Metrics : P (list (Metric P E));
  Patches : P (list (PatchTemplate P));
  NamespaceSelector : P (E LabelSelector);
  NamespaceTemplate : P (NamespaceTemplateSpec E);
  ExperimentSpec_Selector : P (E LabelSelector);
  ExperimentSpec_Template : TrialTemplateSpec P E }.

Record Experiment (P : Type -> Type) (E : Kind -> Type) := mkExperiment {
  Experiment_TypeMeta : string * string;
  Experiment_ObjectMeta : E ObjectMeta;
  Experiment_Spec : ExperimentSpec P E;
  Experiment_Status : Scalars }.

Record ExperimentList (P : Type -> Type) (E : Kind -> Type) := mkExperimentList {
  ExperimentList_TypeMeta : string * string;
  ExperimentList_ListMeta : E ListMeta;
  ExperimentList_Items : P (list (Experiment P E)) }.

Arguments TargetRef {P}.
Arguments PatchType {P}.
Arguments Data {P}.
Arguments AttemptsRemaining {P}.
Arguments ParameterRef {P}.
Arguments HelmValue_Name {P}.
Arguments ForceString {P}.
Arguments HelmValue_Value {P}.
Arguments ValueFrom {P}.
Arguments ConfigMap {P}.
Arguments SetupTask_Name {P E}.
Arguments Image {P E}.
Arguments SkipCreate {P E}.
Arguments SkipDelete {P E}.
Arguments Command {P E}.
Arguments Args {P E}.
Arguments VolumeMounts {P E}.
Arguments HelmChart {P E}.
Arguments HelmValues {P E}.
Arguments HelmValuesFrom {P E}.
Arguments Gate_rest {P E}.
Arguments Gate_Selector {P E}.
Arguments Gate_ConditionTypes {P E}.
Arguments Check_rest {P E}.
Arguments Check_TargetRef {P E}.
Arguments Check_Selector {P E}.
Arguments Check_ConditionTypes {P E}.
Arguments LastCheckTime {P E}.
Arguments ExperimentRef {P E}.
Arguments TargetNamespace {P E}.
Arguments Assignments {P E}.
Arguments Selector {P E}.
Arguments Template {P E}.
Arguments StartTimeOffset {P E}.
Arguments ApproximateRuntime {P E}.
Arguments TTLSecondsAfterFinished {P E}.
Arguments TTLSecondsAfterFailure {P E}.
Arguments ReadinessGates {P E}.
Arguments PatchOperations {P E}.
Arguments ReadinessChecks {P E}.
Arguments Values {P E}.
Arguments SetupTasks {P E}.
Arguments SetupVolumes {P E}.
Arguments SetupServiceAccountName {P E}.
Arguments SetupDefaultRules {P E}.
Arguments Status_Assignments {P}.
Arguments Status_Values {P}.
Arguments StartTime {P}.
Arguments CompletionTime {P}.
Arguments Conditions {P}.
Arguments TypeMeta {P E}.
Arguments Trial_ObjectMeta {P E}.
Arguments Spec {P E}.
Arguments Status {P E}.
Arguments TrialList_TypeMeta {P E}.
Arguments TrialList_ListMeta {P E}.
Arguments TrialList_Items {P E}.
Arguments TrialTemplate_ObjectMeta {P E}.
Arguments TrialTemplate_Spec {P E}.
Arguments SumParameter_rest {E}.
Arguments Weight {E}.
Arguments Sum_rest {P E}.
Arguments Bound {P E}.
Arguments Sum_Parameters {P E}.
Arguments Constraint_rest {P E}.
Arguments Order {P E}.
Arguments Sum {P E}.
Arguments Metric_Name {P E}.
Arguments Minimize {P E}.
Arguments Metric_Type {P E}.
Arguments Query {P E}.
Arguments Metric_Selector {P E}.
Arguments Port {P E}.
Arguments Path {P E}.
Arguments NamespaceTemplate_ObjectMeta {E}.
Arguments NamespaceTemplate_Spec {E}.
Arguments PatchTemplate_rest {P}.
Arguments PatchTemplate_TargetRef {P}.
Arguments PatchTemplate_ReadinessGates {P}.
Arguments ExperimentSpec_rest {P E}.
Arguments Replicas {P E}.
Arguments Optimization {P E}.
Arguments Parameters {P E}.
Arguments Constraints {P E}.
Arguments Metrics {P E}.
Arguments Patches {P E}.
Arguments NamespaceSelector {P E}.
Arguments NamespaceTemplate {P E}.
Arguments ExperimentSpec_Selector {P E}.
Arguments ExperimentSpec_Template {P E}.
Arguments Experiment_TypeMeta {P E}.
Arguments Experiment_ObjectMeta {P E}.
Arguments Experiment_Spec {P E}.
Arguments Experiment_Status {P E}.
Arguments ExperimentList_TypeMeta {P E}.
Arguments ExperimentList_ListMeta {P E}.
Arguments ExperimentList_Items {P E}.

(** The types of the Kubernetes libraries: in memory, as the values they
    denote, the heap cells of their own, and their zero values. *)
Class K8s := {
  ExtH : Kind -> Type;
  ExtV : Kind -> Type;
  ExtCell : Type;
  ext_zero : forall k, ExtH k;
  cell_zero : ExtCell }.

(** The element types of heap cells. [TInt] serves [int32], [metav1.Duration]
    and [metav1.Time]; [TScalars] the structs without pointers whose
    declaration is not at hand ([OrderConstraint], [Optimization],
    [PatchReadinessGate], [ExperimentStatus]). *)
Inductive Tag :=
| TByte | TString | TInt | TObjectReference | TAssignment | TValue
| TParameterSelector | TConfigMapHelmValuesFromSource | TTrialCondition
| TScalars | TParameter
| TPatchOperation | THelmValueSource | THelmValue | THelmValuesFromSource
| TSetupTask | TTrialReadinessGate | TReadinessCheck | TTrialSpec
| TTrialStatus | TTrial | TTrialList | TTrialTemplateSpec
| TSumConstraintParameter | TSumConstraint | TConstraint | TMetric
| TNamespaceTemplateSpec | TPatchTemplate | TExperimentSpec | TExperiment
| TExperimentList
| TExt (k : Kind)
| TExtCell.

#[global] Instance Kind_eq_dec : EqDecision Kind.
Proof. solve_decision. Defined.

#[global] Instance Tag_eq_dec : EqDecision Tag.
Proof. solve_decision. Defined.

Section Memory.
Context {K : K8s}.

Definition tyOf (t : Tag) : Type :=
  match t with
  | TByte => byte
  | TString => string
  | TInt => Z
  | TObjectReference => ObjectReference
  | TAssignment => v1alpha1.Assignment
  | TValue => v1alpha1.Value
  | TParameterSelector => v1alpha1.ParameterSelector
  | TConfigMapHelmValuesFromSource => v1alpha1.ConfigMapHelmValuesFromSource
  | TTrialCondition => v1alpha1.TrialCondition
  | TScalars => Scalars
  | TParameter => v1alpha1.ExperimentParameter
  | TPatchOperation => PatchOperation ref
  | THelmValueSource => HelmValueSource ref
  | THelmValue => HelmValue ref
  | THelmValuesFromSource => HelmValuesFromSource ref
  | TSetupTask => SetupTask ref ExtH
  | TTrialReadinessGate => TrialReadinessGate ref ExtH
  | TReadinessCheck => ReadinessCheck ref ExtH
  | TTrialSpec => TrialSpec ref ExtH
  | TTrialStatus => TrialStatus ref
  | TTrial => Trial ref ExtH
  | TTrialList => TrialList ref ExtH
  | TTrialTemplateSpec => TrialTemplateSpec ref ExtH
  | TSumConstraintParameter => SumConstraintParameter ExtH
  | TSumConstraint => SumConstraint ref ExtH
  | TConstraint => Constraint ref ExtH
  | TMetric => Metric ref ExtH
  | TNamespaceTemplateSpec => NamespaceTemplateSpec ExtH
  | TPatchTemplate => PatchTemplate ref
  | TExperimentSpec => ExperimentSpec ref ExtH
  | TExperiment => Experiment ref ExtH
  | TExperimentList => ExperimentList ref ExtH
  | TExt k => ExtH k
  | TExtCell => ExtCell
  end.

(** A heap cell: an array of elements of one type. *)
Definition cell : Type := { t : Tag & list (tyOf t) }.

Definition inj (t : Tag) (a : list (tyOf t)) : cell := existT t a.

Definition proj (t : Tag) (c : cell) : option (list (tyOf t)) :=
  match decide (projT1 c = t) with
  | left e => Some (eq_rect (projT1 c) (fun t => list (tyOf t)) (projT2 c) t e)
  | right _ => None
  end.

Definition zeroObjectReference : ObjectReference :=
  mkObjectReference EmptyString EmptyString EmptyString EmptyString EmptyString
    EmptyString EmptyString.

Definition zeroIntOrString : IntOrString := mkIntOrString 0%Z 0%Z EmptyString.

Definition zeroTrialSpec : TrialSpec ref ExtH :=
  mkTrialSpec ref ExtH None EmptyString None None None None None None None None None
    None None None None EmptyString None.

(** The zero value of each type. *)
Definition zero (t : Tag) : tyOf t :=
  match t with
  | TByte => x00
  | TString => EmptyString
  | TInt => 0%Z
  | TObjectReference => zeroObjectReference
  | TAssignment => v1alpha1.mkAssignment EmptyString 0%Z
  | TValue => v1alpha1.mkValue EmptyString EmptyString EmptyString 0%Z
  | TParameterSelector => v1alpha1.mkParameterSelector EmptyString
  | TConfigMapHelmValuesFromSource => v1alpha1.mkConfigMapRef EmptyString
  | TTrialCondition =>
      v1alpha1.mkTrialCondition EmptyString EmptyString 0%Z 0%Z EmptyString EmptyString
  | TScalars => mkScalars []
  | TParameter => v1alpha1.mkParameter EmptyString 0%Z 0%Z
  | TPatchOperation => mkPatchOperation ref zeroObjectReference EmptyString None 0%Z
  | THelmValueSource => mkHelmValueSource ref None
  | THelmValue => mkHelmValue ref EmptyString false zeroIntOrString None
  | THelmValuesFromSource => mkHelmValuesFromSource ref None
  | TSetupTask =>
      mkSetupTask ref ExtH EmptyString EmptyString false false None None None
        EmptyString None None
  | TTrialReadinessGate => mkTrialReadinessGate ref ExtH (mkScalars []) None None
  | TReadinessCheck =>
      mkReadinessCheck ref ExtH (mkScalars []) zeroObjectReference None None None
  | TTrialSpec => zeroTrialSpec
  | TTrialStatus => mkTrialStatus ref EmptyString EmptyString None None None
  | TTrial =>
      mkTrial ref ExtH (EmptyString, EmptyString) (ext_zero ObjectMeta) zeroTrialSpec
        (mkTrialStatus ref EmptyString EmptyString None None None)
  | TTrialList => mkTrialList ref ExtH (EmptyString, EmptyString) (ext_zero ListMeta) None
  | TTrialTemplateSpec => mkTrialTemplateSpec ref ExtH (ext_zero ObjectMeta) zeroTrialSpec
  | TSumConstraintParameter => mkSumConstraintParameter ExtH (mkScalars []) (ext_zero Quantity)
  | TSumConstraint => mkSumConstraint ref ExtH (mkScalars []) (ext_zero Quantity) None
  | TConstraint => mkConstraint ref ExtH (mkScalars []) None None
  | TMetric =>
      mkMetric ref ExtH EmptyString false EmptyString EmptyString None zeroIntOrString
        EmptyString
  | TNamespaceTemplateSpec =>
      mkNamespaceTemplateSpec ExtH (ext_zero ObjectMeta) (ext_zero NamespaceSpec)
  | TPatchTemplate => mkPatchTemplate ref (mkScalars []) None None
  | TExperimentSpec =>
      mkExperimentSpec ref ExtH (mkScalars []) None None None None None None None None None
        (mkTrialTemplateSpec ref ExtH (ext_zero ObjectMeta) zeroTrialSpec)
  | TExperiment =>
      mkExperiment ref ExtH (EmptyString, EmptyString) (ext_zero ObjectMeta)
        (mkExperimentSpec ref ExtH (mkScalars []) None None None None None None None None
           None (mkTrialTemplateSpec ref ExtH (ext_zero ObjectMeta) zeroTrialSpec))
        (mkScalars [])
  | TExperimentList =>
      mkExperimentList ref ExtH (EmptyString, EmptyString) (ext_zero ListMeta) None
  | TExt k => ext_zero k
  | TExtCell => cell_zero
  end.

(** The heap: cell [l] is at index [l]; allocation appends. *)
Abbreviation heap := (list cell).

(** Computations on the heap; [None] is a fault (a dangling address, a cell
    of another type, an index out of range). *)
Definition M (A : Type) : Type := heap -> option (A * heap).

#[global] Instance M_ret : MRet M := fun A x h => Some (x, h).

#[global] Instance M_bind : MBind M := fun A B f m h =>
  match m h with
  | Some (x, h') => f x h'
  | None => None
  end.

Definition fault {A : Type} : M A := fun _ => None.

Definition alloc (c : cell) : M loc := fun h => Some (length h, h ++ [c]).

(** The array at [l]. *)
Definition fetch (t : Tag) (l : loc) : M (list (tyOf t)) := fun h =>
  match h !! l with
  | Some c => match proj t c with Some a => Some (a, h) | None => None end
  | None => None
  end.

Definition put (t : Tag) (l : loc) (a : list (tyOf t)) : M unit := fun h =>
  if decide (l < length h) then Some (tt, <[l := inj t a]> h) else None.

(** [make([]T, n)]; [new(T)] is [make t 1]. *)
Definition make (t : Tag) (n : nat) : M loc := alloc (inj t (replicate n (zero t))).

(** [len(s)] *)
Definition len (t : Tag) (l : loc) : M nat := a ← fetch t l; mret (length a).

(** [s[i]] *)
Definition index (t : Tag) (l : loc) (i : nat) : M (tyOf t) :=
  a ← fetch t l;
  match a !! i with Some x => mret x | None => fault end.

(** [s[i] = y] *)
Definition assign (t : Tag) (l : loc) (i : nat) (y : tyOf t) : M unit :=
  a ← fetch t l;
  if decide (i < length a) then put t l (<[i := y]> a) else fault.

(** [copy(dst, src)] *)
Definition copy (t : Tag) (dst src : loc) : M unit :=
  s ← fetch t src;
  d ← fetch t dst;
  let n := Nat.min (length d) (length s) in
  put t dst (take n s ++ drop n d).

(** [if in.X != nil { *out = make([]T, len( *in)); copy( *out, *in) }] *)
Definition copy_slice (t : Tag) (s : ref (list (tyOf t))) : M (ref (list (tyOf t))) :=
  match s with
  | None => mret None
  | Some src =>
      n ← len t src;
      dst ← make t n;
      copy t dst src;;
      mret (Some dst)
  end.

(** [for i := range *in { ( *in)[i].DeepCopyInto(&( *out)[i]) }], from index
    [i] on, [n] elements to go. *)
Fixpoint range_DeepCopyInto (t : Tag) (f : tyOf t -> M (tyOf t)) (src dst : loc)
  (i n : nat) : M unit :=
  match n with
  | O => mret tt
  | S n =>
      x ← index t src i;
      y ← f x;
      assign t dst i y;;
      range_DeepCopyInto t f src dst (S i) n
  end.

(** [if in.X != nil { *out = make([]T, len( *in)); for i := range *in {...} }] *)
Definition each_slice (t : Tag) (f : tyOf t -> M (tyOf t)) (s : ref (list (tyOf t)))
  : M (ref (list (tyOf t))) :=
  match s with
  | None => mret None
  | Some src =>
      n ← len t src;
      dst ← make t n;
      range_DeepCopyInto t f src dst 0 n;;
      mret (Some dst)
  end.

(** The generated [DeepCopy] of type [t], whose [DeepCopyInto] is [f]:
    [if in == nil { return nil }; out := new(T); in.DeepCopyInto(out); return out].
    The same steps copy a pointer field:
    [if in.X != nil { *out = new(T); ( *in).DeepCopyInto( *out) }], and with
    [f] the plain assignment, [*out = new(T); **out = **in]. *)
Definition DeepCopy (t : Tag) (f : tyOf t -> M (tyOf t)) (p : ref (tyOf t))
  : M (ref (tyOf t)) :=
  match p with
  | None => mret None
  | Some src =>
      dst ← make t 1;
      x ← index t src 0;
      y ← f x;
      assign t dst 0 y;;
      mret (Some dst)
  end.

(** [*out = *in] for a type without pointers. *)
Definition assign_plain {T : Type} (x : T) : M T := mret x.

(** The value a slice denotes. *)
Definition read_slice (t : Tag) {V : Type} (rd : heap -> tyOf t -> option V)
  (h : heap) (s : ref (list (tyOf t))) : option (option (list V)) :=
  match s with
  | None => Some None
  | Some l =>
      match h !! l with
      | Some c =>
          match proj t c with
          | Some a => match mapM (rd h) a with Some vs => Some (Some vs) | None => None end
          | None => None
          end
      | None => None
      end
  end.

(** The value a pointer denotes. *)
Definition read_ptr (t : Tag) {V : Type} (rd : heap -> tyOf t -> option V)
  (h : heap) (p : ref (tyOf t)) : option (option V) :=
  match p with
  | None => Some None
  | Some l =>
      match h !! l with
      | Some c =>
          match proj t c with
          | Some [x] => match rd h x with Some v => Some (Some v) | None => None end
          | _ => None
          end
      | None => None
      end
  end.

Definition plain {T : Type} (h : heap) (x : T) : option T := Some x.

End Memory.

Abbreviation heap := (list cell).

(** The deep copies of the Kubernetes libraries, and the values their
    types denote. *)
Class K8sDeepCopy {K : K8s} := {
  ext_DeepCopyInto : forall k, ExtH k -> M (ExtH k);
  ext_read : forall k, heap -> ExtH k -> option (ExtV k) }.

Section Generated.
Context {K : K8s} {D : K8sDeepCopy}.

(** Each [DeepCopyInto] takes the struct [*in] and gives the struct to be
    stored in [*out]: it starts from [*out = *in] and replaces the pointer
    and slice fields, in the order of the source. *)

Definition Time_DeepCopyInto (in_ : Time) : M Time := assign_plain in_.

Definition Assignment_DeepCopyInto (in_ : v1alpha1.Assignment) : M v1alpha1.Assignment :=
  assign_plain in_.

Definition ConfigMapHelmValuesFromSource_DeepCopyInto
  (in_ : v1alpha1.ConfigMapHelmValuesFromSource) : M v1alpha1.ConfigMapHelmValuesFromSource :=
  assign_plain in_.

Definition ExperimentStatus_DeepCopyInto (in_ : Scalars) : M Scalars := assign_plain in_.
Definition Optimization_DeepCopyInto (in_ : Scalars) : M Scalars := assign_plain in_.
Definition OrderConstraint_DeepCopyInto (in_ : Scalars) : M Scalars := assign_plain in_.
Definition PatchReadinessGate_DeepCopyInto (in_ : Scalars) : M Scalars := assign_plain in_.

Definition Parameter_DeepCopyInto (in_ : v1alpha1.ExperimentParameter)
  : M v1alpha1.ExperimentParameter := assign_plain in_.

Definition ParameterSelector_DeepCopyInto (in_ : v1alpha1.ParameterSelector)
  : M v1alpha1.ParameterSelector := assign_plain in_.

Definition Value_DeepCopyInto (in_ : v1alpha1.Value) : M v1alpha1.Value := assign_plain in_.

Definition TrialCondition_DeepCopyInto (in_ : v1alpha1.TrialCondition)
  : M v1alpha1.TrialCondition :=
  probe ← Time_DeepCopyInto (v1alpha1.LastProbeTime in_);
  transition ← Time_DeepCopyInto (v1alpha1.LastTransitionTime in_);
  mret (v1alpha1.mkTrialCondition (v1alpha1.Condition_Type in_)
          (v1alpha1.Condition_Status in_) probe transition (v1alpha1.Reason in_)
          (v1alpha1.Message in_)).

Definition PatchOperation_DeepCopyInto (in_ : PatchOperation ref) : M (PatchOperation ref) :=
  data ← copy_slice TByte (Data in_);
  mret (mkPatchOperation ref (TargetRef in_) (PatchType in_) data (AttemptsRemaining in_)).

Definition HelmValueSource_DeepCopyInto (in_ : HelmValueSource ref) : M (HelmValueSource ref) :=
  parameterRef ← DeepCopy TParameterSelector assign_plain (ParameterRef in_);
  mret (mkHelmValueSource ref parameterRef).

Definition HelmValue_DeepCopyInto (in_ : HelmValue ref) : M (HelmValue ref) :=
  valueFrom ← DeepCopy THelmValueSource HelmValueSource_DeepCopyInto (ValueFrom in_);
  mret (mkHelmValue ref (HelmValue_Name in_) (ForceString in_) (HelmValue_Value in_) valueFrom).

Definition HelmValuesFromSource_DeepCopyInto (in_ : HelmValuesFromSource ref)
  : M (HelmValuesFromSource ref) :=
  configMap ← DeepCopy TConfigMapHelmValuesFromSource assign_plain (ConfigMap in_);
  mret (mkHelmValuesFromSource ref configMap).

Definition SetupTask_DeepCopyInto (in_ : SetupTask ref ExtH) : M (SetupTask ref ExtH) :=
  command ← copy_slice TString (Command in_);
  args ← copy_slice TString (Args in_);
  volumeMounts ← each_slice (TExt VolumeMount) (ext_DeepCopyInto VolumeMount) (VolumeMounts in_);
  helmValues ← each_slice THelmValue HelmValue_DeepCopyInto (HelmValues in_);
  helmValuesFrom ← each_slice THelmValuesFromSource HelmValuesFromSource_DeepCopyInto
                     (HelmValuesFrom in_);
  mret (mkSetupTask ref ExtH (SetupTask_Name in_) (Image in_) (SkipCreate in_) (SkipDelete in_)
          command args volumeMounts (HelmChart in_) helmValues helmValuesFrom).

Definition TrialReadinessGate_DeepCopyInto (in_ : TrialReadinessGate ref ExtH)
  : M (TrialReadinessGate ref ExtH) :=
  selector ← DeepCopy (TExt LabelSelector) (ext_DeepCopyInto LabelSelector) (Gate_Selector in_);
  conditionTypes ← copy_slice TString (Gate_ConditionTypes in_);
  mret (mkTrialReadinessGate ref ExtH (Gate_rest in_) selector conditionTypes).

Definition ReadinessCheck_DeepCopyInto (in_ : ReadinessCheck ref ExtH)
  : M (ReadinessCheck ref ExtH) :=
  selector ← DeepCopy (TExt LabelSelector) (ext_DeepCopyInto LabelSelector) (Check_Selector in_);
  conditionTypes ← copy_slice TString (Check_ConditionTypes in_);
  lastCheckTime ← DeepCopy TInt Time_DeepCopyInto (LastCheckTime in_);
  mret (mkReadinessCheck ref ExtH (Check_rest in_) (Check_TargetRef in_) selector
          conditionTypes lastCheckTime).

Definition TrialSpec_DeepCopyInto (in_ : TrialSpec ref ExtH) : M (TrialSpec ref ExtH) :=
  experimentRef ← DeepCopy TObjectReference assign_plain (ExperimentRef in_);
  assignments ← copy_slice TAssignment (Assignments in_);
  selector ← DeepCopy (TExt LabelSelector) (ext_DeepCopyInto LabelSelector) (Selector in_);
  template ← DeepCopy (TExt JobTemplateSpec) (ext_DeepCopyInto JobTemplateSpec) (Template in_);
  startTimeOffset ← DeepCopy TInt assign_plain (StartTimeOffset in_);
  approximateRuntime ← DeepCopy TInt assign_plain (ApproximateRuntime in_);
  ttlSecondsAfterFinished ← DeepCopy TInt assign_plain (TTLSecondsAfterFinished in_);
  ttlSecondsAfterFailure ← DeepCopy TInt assign_plain (TTLSecondsAfterFailure in_);
  readinessGates ← each_slice TTrialReadinessGate TrialReadinessGate_DeepCopyInto
                     (ReadinessGates in_);
  patchOperations ← each_slice TPatchOperation PatchOperation_DeepCopyInto
                      (PatchOperations in_);
  readinessChecks ← each_slice TReadinessCheck ReadinessCheck_DeepCopyInto
                      (ReadinessChecks in_);
  values ← copy_slice TValue (Values in_);
  setupTasks ← each_slice TSetupTask SetupTask_DeepCopyInto (SetupTasks in_);
  setupVolumes ← each_slice (TExt Volume) (ext_DeepCopyInto Volume) (SetupVolumes in_);
  setupDefaultRules ← each_slice (TExt PolicyRule) (ext_DeepCopyInto PolicyRule)
                        (SetupDefaultRules in_);
  mret (mkTrialSpec ref ExtH experimentRef (TargetNamespace in_) assignments selector template
          startTimeOffset approximateRuntime ttlSecondsAfterFinished ttlSecondsAfterFailure
          readinessGates patchOperations readinessChecks values setupTasks setupVolumes
          (SetupServiceAccountName in_) setupDefaultRules).

Definition TrialStatus_DeepCopyInto (in_ : TrialStatus ref) : M (TrialStatus ref) :=
  startTime ← DeepCopy TInt Time_DeepCopyInto (StartTime in_);
  completionTime ← DeepCopy TInt Time_DeepCopyInto (CompletionTime in_);
  conditions ← each_slice TTrialCondition TrialCondition_DeepCopyInto (Conditions in_);
  mret (mkTrialStatus ref (Status_Assignments in_) (Status_Values in_) startTime
          completionTime conditions).

Definition Trial_DeepCopyInto (in_ : Trial ref ExtH) : M (Trial ref ExtH) :=
  objectMeta ← ext_DeepCopyInto ObjectMeta (Trial_ObjectMeta in_);
  spec ← TrialSpec_DeepCopyInto (Spec in_);
  status ← TrialStatus_DeepCopyInto (Status in_);
  mret (mkTrial ref ExtH (TypeMeta in_) objectMeta spec status).

Definition TrialList_DeepCopyInto (in_ : TrialList ref ExtH) : M (TrialList ref ExtH) :=
  listMeta ← ext_DeepCopyInto ListMeta (TrialList_ListMeta in_);
  items ← each_slice TTrial Trial_DeepCopyInto (TrialList_Items in_);
  mret (mkTrialList ref ExtH (TrialList_TypeMeta in_) listMeta items).

Definition TrialTemplateSpec_DeepCopyInto (in_ : TrialTemplateSpec ref ExtH)
  : M (TrialTemplateSpec ref ExtH) :=
  objectMeta ← ext_DeepCopyInto ObjectMeta (TrialTemplate_ObjectMeta in_);
  spec ← TrialSpec_DeepCopyInto (TrialTemplate_Spec in_);
  mret (mkTrialTemplateSpec ref ExtH objectMeta spec).

Definition SumConstraintParameter_DeepCopyInto (in_ : SumConstraintParameter ExtH)
  : M (SumConstraintParameter ExtH) :=
  weight ← ext_DeepCopyInto Quantity (Weight in_);
  mret (mkSumConstraintParameter ExtH (SumParameter_rest in_) weight).

Definition SumConstraint_DeepCopyInto (in_ : SumConstraint ref ExtH)
  : M (SumConstraint ref ExtH) :=
  bound ← ext_DeepCopyInto Quantity (Bound in_);
  parameters ← each_slice TSumConstraintParameter SumConstraintParameter_DeepCopyInto
                 (Sum_Parameters in_);
  mret (mkSumConstraint ref ExtH (Sum_rest in_) bound parameters).

Definition Constraint_DeepCopyInto (in_ : Constraint ref ExtH) : M (Constraint ref ExtH) :=
  order ← DeepCopy TScalars assign_plain (Order in_);
  sum ← DeepCopy TSumConstraint SumConstraint_DeepCopyInto (Sum in_);
  mret (mkConstraint ref ExtH (Constraint_rest in_) order sum).

Definition Metric_DeepCopyInto (in_ : Metric ref ExtH) : M (Metric ref ExtH) :=
  selector ← DeepCopy (TExt LabelSelector) (ext_DeepCopyInto LabelSelector)
               (Metric_Selector in_);
  mret (mkMetric ref ExtH (Metric_Name in_) (Minimize in_) (Metric_Type in_) (Query in_)
          selector (Port in_) (Path in_)).

Definition NamespaceTemplateSpec_DeepCopyInto (in_ : NamespaceTemplateSpec ExtH)
  : M (NamespaceTemplateSpec ExtH) :=
  objectMeta ← ext_DeepCopyInto ObjectMeta (NamespaceTemplate_ObjectMeta in_);
  spec ← ext_DeepCopyInto NamespaceSpec (NamespaceTemplate_Spec in_);
  mret (mkNamespaceTemplateSpec ExtH objectMeta spec).

Definition PatchTemplate_DeepCopyInto (in_ : PatchTemplate ref) : M (PatchTemplate ref) :=
  targetRef ← DeepCopy TObjectReference assign_plain (PatchTemplate_TargetRef in_);
  readinessGates ← copy_slice TScalars (PatchTemplate_ReadinessGates in_);
  mret (mkPatchTemplate ref (PatchTemplate_rest in_) targetRef readinessGates).

Definition ExperimentSpec_DeepCopyInto (in_ : ExperimentSpec ref ExtH)
  : M (ExperimentSpec ref ExtH) :=
  replicas ← DeepCopy TInt assign_plain (Replicas in_);
  optimization ← copy_slice TScalars (Optimization in_);
  parameters ← copy_slice TParameter (Parameters in_);
  constraints ← each_slice TConstraint Constraint_DeepCopyInto (Constraints in_);
  metrics ← each_slice TMetric Metric_DeepCopyInto (Metrics in_);
  patches ← each_slice TPatchTemplate PatchTemplate_DeepCopyInto (Patches in_);
  namespaceSelector ← DeepCopy (TExt LabelSelector) (ext_DeepCopyInto LabelSelector)
                        (NamespaceSelector in_);
  namespaceTemplate ← DeepCopy TNamespaceTemplateSpec NamespaceTemplateSpec_DeepCopyInto
                        (NamespaceTemplate in_);
  selector ← DeepCopy (TExt LabelSelector) (ext_DeepCopyInto LabelSelector)
               (ExperimentSpec_Selector in_);
  template ← TrialTemplateSpec_DeepCopyInto (ExperimentSpec_Template in_);
  mret (mkExperimentSpec ref ExtH (ExperimentSpec_rest in_) replicas optimization parameters
          constraints metrics patches namespaceSelector namespaceTemplate selector template).

Definition Experiment_DeepCopyInto (in_ : Experiment ref ExtH) : M (Experiment ref ExtH) :=
  objectMeta ← ext_DeepCopyInto ObjectMeta (Experiment_ObjectMeta in_);
  spec ← ExperimentSpec_DeepCopyInto (Experiment_Spec in_);
  mret (mkExperiment ref ExtH (Experiment_TypeMeta in_) objectMeta spec (Experiment_Status in_)).

Definition ExperimentList_DeepCopyInto (in_ : ExperimentList ref ExtH)
  : M (ExperimentList ref ExtH) :=
  listMeta ← ext_DeepCopyInto ListMeta (ExperimentList_ListMeta in_);
  items ← each_slice TExperiment Experiment_DeepCopyInto (ExperimentList_Items in_);
  mret (mkExperimentList ref ExtH (ExperimentList_TypeMeta in_) listMeta items).

(** The generated [DeepCopy] methods, one per type. *)
Definition Assignment_DeepCopy := DeepCopy TAssignment Assignment_DeepCopyInto.
Definition ConfigMapHelmValuesFromSource_DeepCopy :=
  DeepCopy TConfigMapHelmValuesFromSource ConfigMapHelmValuesFromSource_DeepCopyInto.
Definition Constraint_DeepCopy := DeepCopy TConstraint Constraint_DeepCopyInto.
Definition Experiment_DeepCopy := DeepCopy TExperiment Experiment_DeepCopyInto.
Definition ExperimentList_DeepCopy := DeepCopy TExperimentList ExperimentList_DeepCopyInto.
Definition ExperimentSpec_DeepCopy := DeepCopy TExperimentSpec ExperimentSpec_DeepCopyInto.
Definition ExperimentStatus_DeepCopy := DeepCopy TScalars ExperimentStatus_DeepCopyInto.
Definition HelmValue_DeepCopy := DeepCopy THelmValue HelmValue_DeepCopyInto.
Definition HelmValueSource_DeepCopy := DeepCopy THelmValueSource HelmValueSource_DeepCopyInto.
Definition HelmValuesFromSource_DeepCopy :=
  DeepCopy THelmValuesFromSource HelmValuesFromSource_DeepCopyInto.
Definition Metric_DeepCopy := DeepCopy TMetric Metric_DeepCopyInto.
Definition NamespaceTemplateSpec_DeepCopy :=
  DeepCopy TNamespaceTemplateSpec NamespaceTemplateSpec_DeepCopyInto.
Definition Optimization_DeepCopy := DeepCopy TScalars Optimization_DeepCopyInto.
Definition OrderConstraint_DeepCopy := DeepCopy TScalars OrderConstraint_DeepCopyInto.
Definition Parameter_DeepCopy := DeepCopy TParameter Parameter_DeepCopyInto.
Definition ParameterSelector_DeepCopy :=
  DeepCopy TParameterSelector ParameterSelector_DeepCopyInto.
Definition PatchOperation_DeepCopy := DeepCopy TPatchOperation PatchOperation_DeepCopyInto.
Definition PatchReadinessGate_DeepCopy := DeepCopy TScalars PatchReadinessGate_DeepCopyInto.
Definition PatchTemplate_DeepCopy := DeepCopy TPatchTemplate PatchTemplate_DeepCopyInto.
Definition ReadinessCheck_DeepCopy := DeepCopy TReadinessCheck ReadinessCheck_DeepCopyInto.
Definition SetupTask_DeepCopy := DeepCopy TSetupTask SetupTask_DeepCopyInto.
Definition SumConstraint_DeepCopy := DeepCopy TSumConstraint SumConstraint_DeepCopyInto.
Definition SumConstraintParameter_DeepCopy :=
  DeepCopy TSumConstraintParameter SumConstraintParameter_DeepCopyInto.
Definition Trial_DeepCopy := DeepCopy TTrial Trial_DeepCopyInto.
Definition TrialCondition_DeepCopy := DeepCopy TTrialCondition TrialCondition_DeepCopyInto.
Definition TrialList_DeepCopy := DeepCopy TTrialList TrialList_DeepCopyInto.
Definition TrialReadinessGate_DeepCopy :=
  DeepCopy TTrialReadinessGate TrialReadinessGate_DeepCopyInto.
Definition TrialSpec_DeepCopy := DeepCopy TTrialSpec TrialSpec_DeepCopyInto.
Definition TrialStatus_DeepCopy := DeepCopy TTrialStatus TrialStatus_DeepCopyInto.
Definition TrialTemplateSpec_DeepCopy :=
  DeepCopy TTrialTemplateSpec TrialTemplateSpec_DeepCopyInto.
Definition Value_DeepCopy := DeepCopy TValue Value_DeepCopyInto.

(** The value a struct in memory denotes: the struct over [option], every
    pointer and slice followed. *)

Definition read_PatchOperation (h : heap) (x : PatchOperation ref)
  : option (PatchOperation option) :=
  data ← read_slice TByte plain h (Data x);
  Some (mkPatchOperation option (TargetRef x) (PatchType x) data (AttemptsRemaining x)).

Definition read_HelmValueSource (h : heap) (x : HelmValueSource ref)
  : option (HelmValueSource option) :=
  parameterRef ← read_ptr TParameterSelector plain h (ParameterRef x);
  Some (mkHelmValueSource option parameterRef).

Definition read_HelmValue (h : heap) (x : HelmValue ref) : option (HelmValue option) :=
  valueFrom ← read_ptr THelmValueSource read_HelmValueSource h (ValueFrom x);
  Some (mkHelmValue option (HelmValue_Name x) (ForceString x) (HelmValue_Value x) valueFrom).

Definition read_HelmValuesFromSource (h : heap) (x : HelmValuesFromSource ref)
  : option (HelmValuesFromSource option) :=
  configMap ← read_ptr TConfigMapHelmValuesFromSource plain h (ConfigMap x);
  Some (mkHelmValuesFromSource option configMap).

Definition read_SetupTask (h : heap) (x : SetupTask ref ExtH) : option (SetupTask option ExtV) :=
  command ← read_slice TString plain h (Command x);
  args ← read_slice TString plain h (Args x);
  volumeMounts ← read_slice (TExt VolumeMount) (ext_read VolumeMount) h (VolumeMounts x);
  helmValues ← read_slice THelmValue read_HelmValue h (HelmValues x);
  helmValuesFrom ← read_slice THelmValuesFromSource read_HelmValuesFromSource h
                     (HelmValuesFrom x);
  Some (mkSetupTask option ExtV (SetupTask_Name x) (Image x) (SkipCreate x) (SkipDelete x)
          command args volumeMounts (HelmChart x) helmValues helmValuesFrom).

Definition read_TrialReadinessGate (h : heap) (x : TrialReadinessGate ref ExtH)
  : option (TrialReadinessGate option ExtV) :=
  selector ← read_ptr (TExt LabelSelector) (ext_read LabelSelector) h (Gate_Selector x);
  conditionTypes ← read_slice TString plain h (Gate_ConditionTypes x);
  Some (mkTrialReadinessGate option ExtV (Gate_rest x) selector conditionTypes).

Definition read_ReadinessCheck (h : heap) (x : ReadinessCheck ref ExtH)
  : option (ReadinessCheck option ExtV) :=
  selector ← read_ptr (TExt LabelSelector) (ext_read LabelSelector) h (Check_Selector x);
  conditionTypes ← read_slice TString plain h (Check_ConditionTypes x);
  lastCheckTime ← read_ptr TInt plain h (LastCheckTime x);
  Some (mkReadinessCheck option ExtV (Check_rest x) (Check_TargetRef x) selector
          conditionTypes lastCheckTime).

Definition read_TrialSpec (h : heap) (x : TrialSpec ref ExtH) : option (TrialSpec option ExtV) :=
  experimentRef ← read_ptr TObjectReference plain h (ExperimentRef x);
  assignments ← read_slice TAssignment plain h (Assignments x);
  selector ← read_ptr (TExt LabelSelector) (ext_read LabelSelector) h (Selector x);
  template ← read_ptr (TExt JobTemplateSpec) (ext_read JobTemplateSpec) h (Template x);
  startTimeOffset ← read_ptr TInt plain h (StartTimeOffset x);
  approximateRuntime ← read_ptr TInt plain h (ApproximateRuntime x);
  ttlSecondsAfterFinished ← read_ptr TInt plain h (TTLSecondsAfterFinished x);
  ttlSecondsAfterFailure ← read_ptr TInt plain h (TTLSecondsAfterFailure x);
  readinessGates ← read_slice TTrialReadinessGate read_TrialReadinessGate h (ReadinessGates x);
  patchOperations ← read_slice TPatchOperation read_PatchOperation h (PatchOperations x);
  readinessChecks ← read_slice TReadinessCheck read_ReadinessCheck h (ReadinessChecks x);
  values ← read_slice TValue plain h (Values x);
  setupTasks ← read_slice TSetupTask read_SetupTask h (SetupTasks x);
  setupVolumes ← read_slice (TExt Volume) (ext_read Volume) h (SetupVolumes x);
  setupDefaultRules ← read_slice (TExt PolicyRule) (ext_read PolicyRule) h
                        (SetupDefaultRules x);
  Some (mkTrialSpec option ExtV experimentRef (TargetNamespace x) assignments selector template
          startTimeOffset approximateRuntime ttlSecondsAfterFinished ttlSecondsAfterFailure
          readinessGates patchOperations readinessChecks values setupTasks setupVolumes
          (SetupServiceAccountName x) setupDefaultRules).

Definition read_TrialStatus (h : heap) (x : TrialStatus ref) : option (TrialStatus option) :=
  startTime ← read_ptr TInt plain h (StartTime x);
  completionTime ← read_ptr TInt plain h (CompletionTime x);
  conditions ← read_slice TTrialCondition plain h (Conditions x);
  Some (mkTrialStatus option (Status_Assignments x) (Status_Values x) startTime
          completionTime conditions).

Definition read_Trial (h : heap) (x : Trial ref ExtH) : option (Trial option ExtV) :=
  objectMeta ← ext_read ObjectMeta h (Trial_ObjectMeta x);
  spec ← read_TrialSpec h (Spec x);
  status ← read_TrialStatus h (Status x);
  Some (mkTrial option ExtV (TypeMeta x) objectMeta spec status).

Definition read_TrialList (h : heap) (x : TrialList ref ExtH) : option (TrialList option ExtV) :=
  listMeta ← ext_read ListMeta h (TrialList_ListMeta x);
  items ← read_slice TTrial read_Trial h (TrialList_Items x);
  Some (mkTrialList option ExtV (TrialList_TypeMeta x) listMeta items).

Definition read_TrialTemplateSpec (h : heap) (x : TrialTemplateSpec ref ExtH)
  : option (TrialTemplateSpec option ExtV) :=
  objectMeta ← ext_read ObjectMeta h (TrialTemplate_ObjectMeta x);
  spec ← read_TrialSpec h (TrialTemplate_Spec x);
  Some (mkTrialTemplateSpec option ExtV objectMeta spec).

Definition read_SumConstraintParameter (h : heap) (x : SumConstraintParameter ExtH)
  : option (SumConstraintParameter ExtV) :=
  weight ← ext_read Quantity h (Weight x);
  Some (mkSumConstraintParameter ExtV (SumParameter_rest x) weight).

Definition read_SumConstraint (h : heap) (x : SumConstraint ref ExtH)
  : option (SumConstraint option ExtV) :=
  bound ← ext_read Quantity h (Bound x);
  parameters ← read_slice TSumConstraintParameter read_SumConstraintParameter h
                 (Sum_Parameters x);
  Some (mkSumConstraint option ExtV (Sum_rest x) bound parameters).

Definition read_Constraint (h : heap) (x : Constraint ref ExtH)
  : option (Constraint option ExtV) :=
  order ← read_ptr TScalars plain h (Order x);
  sum ← read_ptr TSumConstraint read_SumConstraint h (Sum x);
  Some (mkConstraint option ExtV (Constraint_rest x) order sum).

Definition read_Metric (h : heap) (x : Metric ref ExtH) : option (Metric option ExtV) :=
  selector ← read_ptr (TExt LabelSelector) (ext_read LabelSelector) h (Metric_Selector x);
  Some (mkMetric option ExtV (Metric_Name x) (Minimize x) (Metric_Type x) (Query x) selector
          (Port x) (Path x)).

Definition read_NamespaceTemplateSpec (h : heap) (x : NamespaceTemplateSpec ExtH)
  : option (NamespaceTemplateSpec ExtV) :=
  objectMeta ← ext_read ObjectMeta h (NamespaceTemplate_ObjectMeta x);
  spec ← ext_read NamespaceSpec h (NamespaceTemplate_Spec x);
  Some (mkNamespaceTemplateSpec ExtV objectMeta spec).

Definition read_PatchTemplate (h : heap) (x : PatchTemplate ref)
  : option (PatchTemplate option) :=
  targetRef ← read_ptr TObjectReference plain h (PatchTemplate_TargetRef x);
  readinessGates ← read_slice TScalars plain h (PatchTemplate_ReadinessGates x);
  Some (mkPatchTemplate option (PatchTemplate_rest x) targetRef readinessGates).

Definition read_ExperimentSpec (h : heap) (x : ExperimentSpec ref ExtH)
  : option (ExperimentSpec option ExtV) :=
  replicas ← read_ptr TInt plain h (Replicas x);
  optimization ← read_slice TScalars plain h (Optimization x);
  parameters ← read_slice TParameter plain h (Parameters x);
  constraints ← read_slice TConstraint read_Constraint h (Constraints x);
  metrics ← read_slice TMetric read_Metric h (Metrics x);
  patches ← read_slice TPatchTemplate read_PatchTemplate h (Patches x);
  namespaceSelector ← read_ptr (TExt LabelSelector) (ext_read LabelSelector) h
                        (NamespaceSelector x);
  namespaceTemplate ← read_ptr TNamespaceTemplateSpec read_NamespaceTemplateSpec h
                        (NamespaceTemplate x);
  selector ← read_ptr (TExt LabelSelector) (ext_read LabelSelector) h
               (ExperimentSpec_Selector x);
  template ← read_TrialTemplateSpec h (ExperimentSpec_Template x);
  Some (mkExperimentSpec option ExtV (ExperimentSpec_rest x) replicas optimization parameters
          constraints metrics patches namespaceSelector namespaceTemplate selector template).

Definition read_Experiment (h : heap) (x : Experiment ref ExtH)
  : option (Experiment option ExtV) :=
  objectMeta ← ext_read ObjectMeta h (Experiment_ObjectMeta x);
  spec ← read_ExperimentSpec h (Experiment_Spec x);
  Some (mkExperiment option ExtV (Experiment_TypeMeta x) objectMeta spec (Experiment_Status x)).

Definition read_ExperimentList (h : heap) (x : ExperimentList ref ExtH)
  : option (ExperimentList option ExtV) :=
  listMeta ← ext_read ListMeta h (ExperimentList_ListMeta x);
  items ← read_slice TExperiment read_Experiment h (ExperimentList_Items x);
  Some (mkExperimentList option ExtV (ExperimentList_TypeMeta x) listMeta items).

(** The method [dc] of a type read by [rd], on a receiver that is not nil
    or is: it runs without fault and returns a pointer that denotes what
    the receiver denotes. *)
Definition returns_a_copy (t : Tag) {V : Type} (rd : heap -> tyOf t -> option V)
  (dc : ref (tyOf t) -> M (ref (tyOf t))) (h : heap) : Prop :=
  forall p w, read_ptr t rd h p = Some w ->
    exists q h', dc p h = Some (q, h') /\ read_ptr t rd h' q = Some w.

End Generated.

(** *** The slices a trial owns *)
Section Owned.
Context {K : K8s}.

Definition addr (s : option loc) : list loc :=
  match s with Some l => [l] | None => [] end.

(** The backing arrays of the [Data] of the patch operations in the array
    at [s]. *)
Definition data_arrays (h : heap) (s : option loc) : list loc :=
  match s with
  | Some l =>
      match h !! l with
      | Some c =>
          match proj TPatchOperation c with
          | Some ops => concat (map (fun op : PatchOperation ref => addr (Data op)) ops)
          | None => []
          end
      | None => []
      end
  | None => []
  end.

(** The backing arrays of Assignments, PatchOperations and their Data,
    Values, SetupTasks and Conditions of a trial. *)
Definition backing_arrays (h : heap) (t : Trial ref ExtH) : list loc :=
  addr (Assignments (Spec t)) ++ addr (PatchOperations (Spec t)) ++
  data_arrays h (PatchOperations (Spec t)) ++ addr (Values (Spec t)) ++
  addr (SetupTasks (Spec t)) ++ addr (Conditions (Status t)).

End Owned.

(** *** What a deep copy has to achieve *)
Section Separation.
Context {K : K8s}.

(** [h'] has the cells of [h] at the addresses from [a] up to [b], [b]
    excluded. *)
Definition agree (a b : nat) (h h' : heap) : Prop :=
  forall l, a <= l -> l < b -> h' !! l = h !! l.

(** [h'] is [h] with every cell of [h] as it was, and possibly new cells. *)
Definition extends (h h' : heap) : Prop :=
  length h <= length h' /\ agree 0 (length h) h h'.

(** In [h], [x] denotes [v], and does so by the cells from [a] up to [b]
    alone: whatever the other cells are changed to, [x] still denotes [v]. *)
Definition confined {T V : Type} (rd : heap -> T -> option V) (a b : nat) (h : heap)
  (x : T) (v : V) : Prop :=
  forall h', agree a b h h' -> rd h' x = Some v.

(** The computation [m] runs from [h] without fault, to a result and a heap
    that satisfy [Q]. *)
Definition wp {A : Type} (m : M A) (h : heap) (Q : A -> heap -> Prop) : Prop :=
  exists y h', m h = Some (y, h') /\ Q y h'.

(** What is readable in a heap only depends on the cells of that heap. *)
Class Wf {T V : Type} (rd : heap -> T -> option V) : Prop :=
  wf : forall h x v, rd h x = Some v -> confined rd 0 (length h) h x v.

(** [f] is a deep copy for the values read by [rd]: on [x] denoting [v] it
    runs without fault, writes no cell that existed, and returns [y]
    denoting [v] by the cells it has allocated alone. *)
Class Copies {T V : Type} (rd : heap -> T -> option V) (f : T -> M T) : Prop :=
  copies : forall h x v, rd h x = Some v ->
    wp (f x) h (fun y h' => extends h h' /\ confined rd (length h) (length h') h' y v).

End Separation.

(** What is assumed of the deep copies of the Kubernetes libraries. *)
Class K8sLaws {K : K8s} {D : K8sDeepCopy} : Prop := {
  ext_wf : forall k, Wf (ext_read k);
  ext_copies : forall k, Copies (ext_read k) (ext_DeepCopyInto k) }.

(** *** [runtime.Object] *)
Section Objects.
Context {K : K8s} {D : K8sDeepCopy}.

(** A value of the interface [runtime.Object]: nil, or a dynamic type with
    a pointer, which may itself be nil (an interface that is not nil and
    holds a nil pointer). *)
Definition Object : Type := option (Tag * option loc).

(** The generated [DeepCopyObject] of type [t], whose [DeepCopy] is [dc]:
    [if c := in.DeepCopy(); c != nil { return c }; return nil]. *)
Definition DeepCopyObject (t : Tag) (dc : ref (tyOf t) -> M (ref (tyOf t)))
  (in_ : ref (tyOf t)) : M Object :=
  c ← dc in_;
  match c with
  | Some l => mret (Some (t, Some l))
  | None => mret None
  end.

Definition Experiment_DeepCopyObject := DeepCopyObject TExperiment Experiment_DeepCopy.
Definition ExperimentList_DeepCopyObject :=
  DeepCopyObject TExperimentList ExperimentList_DeepCopy.
Definition Trial_DeepCopyObject := DeepCopyObject TTrial Trial_DeepCopy.
Definition TrialList_DeepCopyObject := DeepCopyObject TTrialList TrialList_DeepCopy.

(** What [DeepCopyObject] of a type read by [rd] owes its caller: a nil
    interface for a nil receiver, and for a receiver that denotes a value
    an interface of that type with a new pointer that denotes the same
    value, no cell of the heap written. *)
Definition copies_object (t : Tag) {V : Type} (rd : heap -> tyOf t -> option V)
  (dco : ref (tyOf t) -> M Object) (h : heap) : Prop :=
  dco None h = Some (None, h) /\
  forall p w, read_ptr t rd h (Some p) = Some w ->
    exists h', dco (Some p) h = Some (Some (t, Some (length h)), h') /\
      extends h h' /\ read_ptr t rd h' (Some (length h)) = Some w.

(** The backing array of a slice; a nil slice has none. *)
Definition backing (t : Tag) (h : heap) (s : option loc) : option (list (tyOf t)) :=
  match s with
  | Some l => match h !! l with Some c => proj t c | None => None end
  | None => None
  end.

(** In [h'], [y] is a copy of what [x] was in [h], and the two are
    independent: no cell of [h] has been written, [x] denotes [v] by the
    cells of [h] alone and [y] denotes [v] by the cells allocated since
    alone. *)
Definition independent_copy {T V : Type} (rd : heap -> T -> option V) (h : heap) (x : T)
  (h' : heap) (y : T) (v : V) : Prop :=
  extends h h' /\
  confined rd 0 (length h) h' x v /\
  confined rd (length h) (length h') h' y v.

(** [f] is a deep copy from [h] for the values read by [rd]: on every value
    that is readable it runs without fault and gives an independent copy. *)
Definition deep_copy {T V : Type} (rd : heap -> T -> option V) (f : T -> M T) (h : heap)
  : Prop :=
  forall x v, rd h x = Some v ->
    exists y h', f x h = Some (y, h') /\ independent_copy rd h x h' y v.

End Objects.

(** *** Examples

    A small stand-in for the Kubernetes libraries: each of their types is a
    pointer to a cell of the library's own, which holds a string. *)
#[local] Instance boxes : K8s := {|
  ExtH := fun _ => option loc;
  ExtV := fun _ => option string;
  ExtCell := string;
  ext_zero := fun _ => None;
  cell_zero := EmptyString |}.

Definition box_DeepCopyInto (x : option loc) : M (option loc) :=
  match x with
  | None => mret None
  | Some src =>
      a ← fetch TExtCell src;
      match a with
      | [s] => dst ← alloc (inj TExtCell [s]); mret (Some dst)
      | _ => fault
      end
  end.

Definition box_read (h : heap) (x : option loc) : option (option string) :=
  match x with
  | None => Some None
  | Some l =>
      match h !! l with
      | Some c => match proj TExtCell c with Some [s] => Some (Some s) | _ => None end
      | None => None
      end
  end.

#[local] Instance boxes_DeepCopy : K8sDeepCopy := {|
  ext_DeepCopyInto := fun _ => box_DeepCopyInto;
  ext_read := fun _ => box_read |}.

(** A trial in memory: cell 0 holds the trial, cells 1 to 9 what it owns. *)
Definition example_trial : Trial ref ExtH :=
  mkTrial ref ExtH ("Trial", "redskyops.dev/v1alpha1") (Some 1)
    (mkTrialSpec ref ExtH None "default" (Some 2) None None None None None None None
       (Some 3) None (Some 5) (Some 6) None EmptyString None)
    (mkTrialStatus ref EmptyString EmptyString None None (Some 9)).

Definition example_heap : heap :=
  [ inj TTrial [example_trial];
    inj TExtCell ["trial-1"];
    inj TAssignment [v1alpha1.mkAssignment "replicas" 3%Z];
    inj TPatchOperation
      [mkPatchOperation ref zeroObjectReference "application/json-patch+json" (Some 4) 0%Z];
    inj TByte [x5b; x5d];
    inj TValue [v1alpha1.mkValue "duration" "12.5" EmptyString 0%Z];
    inj TSetupTask
      [mkSetupTask ref ExtH "prometheus" EmptyString false false (Some 7) None None
         "stable/prometheus" (Some 8) None];
    inj TString ["install"];
    inj THelmValue [mkHelmValue ref "replicas" false zeroIntOrString None];
    inj TTrialCondition
      [v1alpha1.mkTrialCondition "Complete" "True" 7%Z 7%Z "Completed" EmptyString] ].

(** The same heap with a list of trials: cell 10 holds the list, cell 11 its
    two items, which share everything they own with the trial of cell 0. *)
Definition example_list : TrialList ref ExtH :=
  mkTrialList ref ExtH ("TrialList", "redskyops.dev/v1alpha1") None (Some 11).

Definition example_list_heap : heap :=
  example_heap ++ [ inj TTrialList [example_list]; inj TTrial [example_trial; example_trial] ].

(** The patch operation of cell 3. *)
Definition example_operation : PatchOperation ref :=
  mkPatchOperation ref zeroObjectReference "application/json-patch+json" (Some 4) 0%Z.

(** An experiment in memory: cell 0 holds the experiment, cells 1 to 8 what
    it owns. *)
Definition example_experiment : Experiment ref ExtH :=
  mkExperiment ref ExtH ("Experiment", "redskyops.dev/v1alpha1") (Some 1)
    (mkExperimentSpec ref ExtH (mkScalars []) (Some 2) None (Some 3) None (Some 4) (Some 7)
       None None None (mkTrialTemplateSpec ref ExtH None zeroTrialSpec))
    (mkScalars []).

Definition example_experiment_heap : heap :=
  [ inj TExperiment [example_experiment];
    inj TExtCell ["experiment-1"];
    inj TInt [2%Z];
    inj TParameter [v1alpha1.mkParameter "replicas" 1%Z 4%Z];
    inj TMetric
      [mkMetric ref ExtH "latency" true "prometheus" "latency_seconds" (Some 5)
         zeroIntOrString "/"];
    inj (TExt LabelSelector) [Some 6];
    inj TExtCell ["app=prometheus"];
    inj TPatchTemplate [mkPatchTemplate ref (mkScalars []) (Some 8) None];
    inj TObjectReference [zeroObjectReference] ].

(** A setup task whose [Command] and [Args] are one and the same array. *)
Definition shared_task : SetupTask ref ExtH :=
  mkSetupTask ref ExtH "prometheus" EmptyString false false (Some 0) (Some 0) None
    EmptyString None None.

Definition shared_task_heap : heap := [ inj TString ["sh"; "-c"] ].

End deepcopy.

(** * Properties *)

(** ** The API client *)
Section Client.
Import redskyapi.


(** C5. When the round trip fails, [Do] returns a nil response, a nil body
    and that very error, after one round trip and nothing else. *)
Theorem Do_round_trip_error (w : World) (ctx : option Context) (req : Request)
  (resp : option Response) (err : error) :
  client_Do w (sent ctx req) = (resp, Some err) ->
  Do w ctx req = (Returned None None (Some err), [RoundTrip (sent ctx req)]).
Proof.
  intros Hrt. unfold Do. cbv zeta. rewrite Hrt. by destruct resp.
Qed.

(** C8. [URL] is the first component of [ExperimentsURL], whatever the
    error; [NewClient] succeeds exactly when [Authorize] and
    [ExperimentsURL] of the empty endpoint give no error; and some
    configuration passes [NewClient] and still has [URL] return nil. *)
Theorem URL_ignores_error :
  (forall c ep, URL c ep = fst (ExperimentsURL (config c) ep)) /\
  (forall cfg ctx tr,
     is_Some (fst (NewClient cfg ctx tr)) <->
     snd (Authorize cfg ctx tr) = None /\ snd (ExperimentsURL cfg EmptyString) = None) /\
  (exists cfg ctx tr hc ep err,
     NewClient cfg ctx tr = (Some hc, None) /\
     ExperimentsURL (config hc) ep = (None, Some err) /\
     URL hc ep = None).
Proof.
  split; [|split].
  - intros c ep. unfold URL. by destruct (ExperimentsURL (config c) ep).
  - intros cfg ctx tr. unfold NewClient.
    destruct (Authorize cfg ctx tr) as [t [e|]]; simpl.
    + split; [intros [x Hx]; discriminate | intros [? ?]; discriminate].
    + destruct (ExperimentsURL cfg EmptyString) as [u [e|]]; simpl.
      * split; [intros [x Hx]; discriminate | intros [? ?]; discriminate].
      * split; eauto.
  - exists (mkConfig
              (fun ep => match ep with
                         | EmptyString => (Some (mkURL "https://api/experiments/"), None)
                         | _ => (None, Some (Err "invalid endpoint"))
                         end)
              (fun _ tr => (tr, None))),
      None, None.
    eexists. exists "%zz", (Err "invalid endpoint"). split; [reflexivity|]. split; reflexivity.
Qed.

(** C9. With a nil context and a round trip that gives a response, [Do]
    does not return: it panics. *)
Theorem Do_nil_context_panics (w : World) (req : Request) (resp : Response) :
  client_Do w req = (Some resp, None) ->
  fst (Do w None req) = Panicked.
Proof.
  intros Hrt. unfold Do, sent. rewrite Hrt. by destruct (ReadAll w resp).
Qed.

End Client.


Lemma Do_round_trip_error_witness :
  redskyapi.client_Do redskyapi.down_world
    (redskyapi.sent (Some redskyapi.example_context) redskyapi.example_request)
    = (None, Some (redskyapi.Err "connection refused")) /\
  redskyapi.Do redskyapi.down_world (Some redskyapi.example_context) redskyapi.example_request
    = (redskyapi.Returned None None (Some (redskyapi.Err "connection refused")),
       [redskyapi.RoundTrip
          (redskyapi.sent (Some redskyapi.example_context) redskyapi.example_request)]).
Proof.
  split; [reflexivity|].
  apply (Do_round_trip_error redskyapi.down_world (Some redskyapi.example_context)
           redskyapi.example_request None (redskyapi.Err "connection refused")).
  reflexivity.
Defined.

Lemma Do_nil_context_panics_witness :
  redskyapi.client_Do redskyapi.cancelled_world redskyapi.example_request
    = (Some redskyapi.example_response, None) /\
  fst (redskyapi.Do redskyapi.cancelled_world None redskyapi.example_request)
    = redskyapi.Panicked.
Proof.
  split; [reflexivity|].
  apply (Do_nil_context_panics redskyapi.cancelled_world redskyapi.example_request
           redskyapi.example_response).
  reflexivity.
Defined.

(** ** The trial lifecycle *)
Section LifecycleProofs.
Import v1alpha1 Lifecycle.
Variable ev : Evaluators.
Variable cfg : Settings.





(** An informational condition leaves a terminal trial terminal. *)
Lemma terminal_add_Condition (c : TrialCondition) (t : Trial) :
  terminal t = true -> terminal (add_Condition c t) = true.
Proof.
  unfold terminal, add_Condition. simpl. intros H.
  rewrite existsb_app, H. done.
Qed.

(** What a step does to a terminal trial: the specification part and the
    phase stay, conditions that are not final may be appended. *)
Lemma step_terminal (now : Time) (e : Event) (s : State) :
  terminal (trial s) = true ->
  Spec (trial (step ev cfg now e s)) = Spec (trial s) /\
  phase (step ev cfg now e s) = phase s /\
  terminal (trial (step ev cfg now e s)) = true /\
  exists extra,
    Conditions (Status (trial (step ev cfg now e s))) =
      (Conditions (Status (trial s)) ++ extra)%list /\
    forallb (fun c => negb (is_final c)) extra = true.
Proof.
  intros Ht. unfold step. rewrite Ht.
  assert (Hsame : Spec (trial s) = Spec (trial s) /\ phase s = phase s /\
            terminal (trial s) = true /\
            exists extra, Conditions (Status (trial s)) =
              (Conditions (Status (trial s)) ++ extra)%list /\
              forallb (fun c => negb (is_final c)) extra = true).
  { repeat split; try done. exists []. by rewrite app_nil_r. }
  assert (Hnote : forall r m,
            Spec (trial (note now r m s)) = Spec (trial s) /\
            phase (note now r m s) = phase s /\
            terminal (trial (note now r m s)) = true /\
            exists extra, Conditions (Status (trial (note now r m s))) =
              (Conditions (Status (trial s)) ++ extra)%list /\
              forallb (fun c => negb (is_final c)) extra = true).
  { intros r m. repeat split; try done.
    - by apply terminal_add_Condition.
    - eexists [_]. split; [reflexivity|]. reflexivity. }
  destruct e as [| | | | | | |[]|]; auto.
Qed.

(** C2. Once a condition of type Complete or Failed has status True, no
    later step changes Assignments, PatchOperations, Values or SetupTasks;
    the list of conditions only grows, by conditions that are not final. *)
Theorem terminal_trial_is_frozen (inputs : list (Time * Event)) (s : State) :
  terminal (trial s) = true ->
  let s' := run ev cfg inputs s in
  Assignments (Spec (trial s')) = Assignments (Spec (trial s)) /\
  PatchOperations (Spec (trial s')) = PatchOperations (Spec (trial s)) /\
  Values (Spec (trial s')) = Values (Spec (trial s)) /\
  SetupTasks (Spec (trial s')) = SetupTasks (Spec (trial s)) /\
  terminal (trial s') = true /\
  exists extra,
    Conditions (Status (trial s')) = (Conditions (Status (trial s)) ++ extra)%list /\
    forallb (fun c => negb (is_final c)) extra = true.
Proof.
  revert s. induction inputs as [|[now e] rest IH]; intros s Ht; simpl.
  - repeat split; try done. exists []. by rewrite app_nil_r.
  - destruct (step_terminal now e s Ht) as (Hspec & _ & Ht' & extra & Hc & Hx).
    destruct (IH _ Ht') as (Ha & Hp & Hv & Hs & Hterm & extra' & Hc' & Hx').
    rewrite Hspec in Ha, Hp, Hv, Hs. repeat split; try done.
    exists (extra ++ extra')%list. rewrite Hc', Hc, <- app_assoc. split; [done|].
    by rewrite forallb_app, Hx, Hx'.
Qed.









Lemma completed_add_Condition (c : TrialCondition) (t : Trial) :
  completed (add_Condition c t) = completed t || is_complete c.
Proof.
  unfold completed, add_Condition. simpl. rewrite existsb_app. simpl.
  by rewrite orb_false_r.
Qed.

Lemma terminal_fail (now : Time) (r m : string) (s : State) :
  terminal (trial (fail now r m s)) = true.
Proof.
  unfold terminal, fail. simpl. rewrite existsb_app. simpl. apply orb_true_r.
Qed.

(** What [scrape] leaves alone. *)
Lemma scrape_frame (i : nat) (svc : Service) (s : State) :
  Status (trial (scrape ev i svc s)) = Status (trial s) /\
  phase (scrape ev i svc s) = phase s /\
  (is_Some (fatal s) -> is_Some (fatal (scrape ev i svc s))).
Proof.
  unfold scrape.
  destruct (Values (Spec (trial s)) !! i) as [v|]; [|done].
  destruct (metrics s !! i) as [m|]; [|done].
  destruct (Z.leb _ 0); [done|].
  destruct (fst (collect ev m (trial s) svc)); [done| |].
  - destruct (Z.eqb _ 0); [|done]. repeat split. simpl. by intros [f ->].
  - repeat split. simpl. by intros [f ->].
Qed.

Lemma step_doomed (now : Time) (e : Event) (s : State) :
  doomed s -> doomed (step ev cfg now e s).
Proof.
  intros (Hc & Hph & Hcase).
  assert (Hnote : forall r m, terminal (trial s) = true \/
            (is_Some (fatal s) /\ (phase s = Measuring \/ phase s = SettingDown)) ->
            doomed (note now r m s)).
  { intros r m Hor. split; [|split; [done|]].
    - unfold note. simpl. by rewrite completed_add_Condition, Hc.
    - destruct Hor as [Ht|Hf]; [left; by apply terminal_add_Condition | by right]. }
  assert (Hsame : doomed s) by done.
  unfold step. destruct (terminal (trial s)) eqn:Ht.
  { destruct e as [| | | | | | |[]|]; try exact Hsame; by apply Hnote; left. }
  destruct Hcase as [?|(Hf & Hm)]; [done|].
  destruct Hm as [Hm|Hm]; rewrite Hm;
    destruct e; try exact Hsame; try (by apply Hnote; right; auto).
  - (* Measuring, Advance *)
    destruct (forallb _ _); split; try done; split; try (by rewrite ?Hm); right; simpl; auto.
  - (* Measuring, Scraped *)
    destruct (scrape_frame i svc s) as (Hst & Hp & Hfat).
    split; [|split; [by rewrite Hp, Hm|right; rewrite Hp; auto]].
    unfold completed. by rewrite Hst.
  - (* SettingDown, SetupDelete *)
    destruct Hf as [[r m] Hf].
    assert (Hfat : fatal (if ok then s
                          else note now "SetupDeleteFailed" "setup task deletion failed" s)
                   = Some (r, m)) by (by destruct ok).
    rewrite Hfat. split; [|split; [done|left; apply terminal_fail]].
    unfold fail. simpl. rewrite completed_add_Condition.
    destruct ok; simpl; [by rewrite Hc|].
    by rewrite completed_add_Condition, Hc.
Qed.

Lemma run_doomed (inputs : list (Time * Event)) (s : State) :
  doomed s -> doomed (run ev cfg inputs s).
Proof.
  revert s. induction inputs as [|[now e] rest IH]; intros s Hd; simpl; [done|].
  by apply IH, step_doomed.
Qed.

Lemma not_terminal_not_completed (t : Trial) : terminal t = false -> completed t = false.
Proof.
  unfold terminal, completed. induction (Conditions (Status t)) as [|c l IH]; simpl; [done|].
  intros [Hc Hl]%orb_false_elim. rewrite (IH Hl), orb_false_r.
  unfold is_final in Hc. unfold is_complete.
  destruct (String.eqb (Condition_Type c) TrialComplete); [|done].
  by destruct (String.eqb (Condition_Status c) ConditionTrue).
Qed.

(** C6. A prometheus metric whose query answers with two points or more is
    a data-shape error: the collector reports it, the counter of the value
    is exhausted at once whatever attempts remained, and the trial can no
    longer complete: whatever happens next, no condition Complete=True is
    set, and once the pass is over the teardown ends in Failed. *)
Theorem prometheus_vector_fails_trial (now : Time) (i : nat) (svc : Service) (s : State)
  (m : Metric) (v : Value) (pts : list (string * string)) :
  terminal (trial s) = false -> phase s = Measuring ->
  metrics s !! i = Some m -> Values (Spec (trial s)) !! i = Some v ->
  0 < Value_AttemptsRemaining v ->
  Metric_Type m = MetricPrometheus ->
  svc (PromQuery (Path m) (Query m)) = Samples pts -> (2 <= length pts)%nat ->
  let s' := step ev cfg now (Scraped i svc) s in
  fst (collect ev m (trial s) svc) = DataShape /\
  value_counters s' !! i = Some 0 /\
  (forall rest, completed (trial (run ev cfg rest s')) = false /\
                phase (run ev cfg rest s') <> Complete) /\
  (forall t1 t2 ok, forallb value_done (Values (Spec (trial s'))) = true ->
     let s'' := run ev cfg [(t1, Advance); (t2, SetupDelete ok)] s' in
     phase s'' = Failed /\ failed (trial s'') = true).
Proof.
  intros Ht Hph Hm Hv Hpos Hty Hsvc Hlen s'.
  assert (Hcol : fst (collect ev m (trial s) svc) = DataShape).
  { unfold collect. rewrite Hty. simpl. rewrite Hsvc.
    destruct pts as [|[a b] [|q pts]]; simpl in *; [lia..|done]. }
  assert (Hs' : s' = with_fatal "MetricFailed" "metric result is not a single scalar"
            (with_trial (set_Values (<[i := set_value_attempts 0 v]> (Values (Spec (trial s))))
               (trial s)) s)).
  { subst s'. unfold step. rewrite Ht, Hph. unfold scrape. rewrite Hv, Hm, Hcol.
    destruct (Z.leb_spec (Value_AttemptsRemaining v) 0); [lia|done]. }
  assert (Hd : doomed s').
  { rewrite Hs'. split; [|split].
    - simpl. by apply not_terminal_not_completed.
    - simpl. by rewrite Hph.
    - right. simpl. split; [destruct (fatal s); eauto|auto]. }
  split; [done|]. split; [|split].
  - rewrite Hs'. unfold value_counters. simpl.
    change (map Value_AttemptsRemaining) with (fmap (M:=list) Value_AttemptsRemaining).
    by rewrite list_lookup_fmap, list_lookup_insert_eq by (by eapply lookup_lt_Some).
  - intros rest. destruct (run_doomed rest s' Hd) as (? & ? & _). done.
  - intros t1 t2 ok Hall s''. subst s''. simpl.
    assert (Ht' : terminal (trial s') = false) by (by rewrite Hs').
    assert (Hph' : phase s' = Measuring) by (by rewrite Hs').
    destruct Hd as (_ & _ & [Hterm|([[r msg] Hf] & _)]); [congruence|].
    assert (Hadv : step ev cfg t1 Advance s' = with_phase SettingDown s').
    { unfold step. by rewrite Ht', Hph', Hall. }
    rewrite Hadv. unfold step. simpl. rewrite Ht'.
    assert (Hfat : fatal (if ok then with_phase SettingDown s'
                          else note t2 "SetupDeleteFailed" "setup task deletion failed"
                                 (with_phase SettingDown s'))
                   = Some (r, msg)) by (by destruct ok).
    rewrite Hfat. split; [done|].
    unfold failed, fail. simpl. rewrite existsb_app. simpl. apply orb_true_r.
Qed.

(** C7, as the sources have it. The three declared collection types are
    pairwise distinct; a metric of type local is evaluated without a call
    to any service, and its result does not depend on the service; a
    metric of type prometheus or jsonpath makes one call. *)
Theorem local_metric_consults_no_service :
  (MetricLocal <> MetricPrometheus /\ MetricLocal <> MetricJSONPath /\
   MetricPrometheus <> MetricJSONPath) /\
  (forall m t svc svc', Metric_Type m = MetricLocal ->
     snd (collect ev m t svc) = [] /\ collect ev m t svc = collect ev m t svc') /\
  (forall m t svc, Metric_Type m = MetricPrometheus ->
     snd (collect ev m t svc) = [PromQuery (Path m) (Query m)]) /\
  (forall m t svc, Metric_Type m = MetricJSONPath ->
     snd (collect ev m t svc) = [JSONGet (Path m)]).
Proof.
  split; [|split; [|split]].
  - repeat split; discriminate.
  - intros m t svc svc' Hty. unfold collect. by rewrite Hty.
  - intros m t svc Hty. unfold collect. by rewrite Hty.
  - intros m t svc Hty. unfold collect. by rewrite Hty.
Qed.

End LifecycleProofs.

Section LifecycleExamples.
Import v1alpha1 Lifecycle.



Lemma terminal_trial_is_frozen_witness :
  terminal (trial example_failed) = true /\
  let s' := run example_evaluators example_settings
              [(9, SetupDelete false); (10, Applied 0 true); (11, JobCompleted)]
              example_failed in
  Assignments (Spec (trial s')) = Assignments (Spec (trial example_failed)) /\
  PatchOperations (Spec (trial s')) = PatchOperations (Spec (trial example_failed)) /\
  Values (Spec (trial s')) = Values (Spec (trial example_failed)) /\
  SetupTasks (Spec (trial s')) = SetupTasks (Spec (trial example_failed)) /\
  terminal (trial s') = true /\
  exists extra,
    Conditions (Status (trial s')) =
      (Conditions (Status (trial example_failed)) ++ extra)%list /\
    forallb (fun c => negb (is_final c)) extra = true.
Proof.
  split; [reflexivity|].
  apply (terminal_trial_is_frozen example_evaluators example_settings
           [(9, SetupDelete false); (10, Applied 0 true); (11, JobCompleted)] example_failed).
  reflexivity.
Defined.

Lemma prometheus_vector_fails_trial_witness :
  terminal (trial example_measuring) = false /\
  phase example_measuring = Measuring /\
  value_counters example_measuring = [3] /\
  let s'' := run example_evaluators example_settings
               [(5, Scraped 0 three_points); (6, Advance); (7, SetupDelete true)]
               example_measuring in
  phase s'' = Failed /\ failed (trial s'') = true.
Proof.
  split; [reflexivity|]. split; [reflexivity|]. split; [reflexivity|].
  refine (proj2 (proj2 (proj2
           (prometheus_vector_fails_trial example_evaluators example_settings 5 0%nat
              three_points example_measuring latency_metric
              (mkValue "latency" EmptyString EmptyString 3)
              [("0.1", EmptyString); ("0.2", EmptyString); ("0.3", EmptyString)]
              eq_refl eq_refl eq_refl eq_refl eq_refl eq_refl eq_refl _))) 6 7 true eq_refl).
  apply le_S, le_n.
Defined.

(** Against C7 as stated: a metric written without a type has a type
    outside the three declared ones. *)
Lemma metric_type_is_any_string :
  ~ In (Metric_Type untyped_metric) [MetricLocal; MetricPrometheus; MetricJSONPath].
Proof. simpl. intros H. decompose [or] H; discriminate || done. Qed.

Lemma local_metric_consults_no_service_witness :
  Metric_Type duration_metric = MetricLocal /\
  snd (collect example_evaluators duration_metric example_trial three_points) = [] /\
  collect example_evaluators duration_metric example_trial three_points
    = collect example_evaluators duration_metric example_trial unreachable.
Proof.
  split; [reflexivity|].
  apply (proj1 (proj2 (local_metric_consults_no_service example_evaluators))).
  reflexivity.
Defined.

End LifecycleExamples.

(** ** The generated deep copies *)
Section HeapFacts.
Import deepcopy.
Context {K : K8s}.
#[local] Open Scope nat_scope.
#[local] Open Scope list_scope.

Lemma proj_inj (t : Tag) (a : list (tyOf t)) : proj t (inj t a) = Some a.
Proof.
  unfold proj, inj. simpl. destruct (decide (t = t)) as [e|]; [|done].
  by rewrite (proof_irrel e eq_refl).
Qed.

Lemma proj_other (t t' : Tag) (a : list (tyOf t')) : t' <> t -> proj t (inj t' a) = None.
Proof. intros Hne. unfold proj, inj. simpl. by destruct (decide (t' = t)). Qed.

Lemma agree_refl (a b : nat) (h : heap) : agree a b h h.
Proof. by intros l _ _. Qed.

Lemma agree_weaken (a b a' b' : nat) (h h' : heap) :
  agree a b h h' -> a <= a' -> b' <= b -> agree a' b' h h'.
Proof. intros H Ha Hb l Hl1 Hl2. apply H; lia. Qed.

Lemma agree_trans (a b : nat) (h1 h2 h3 : heap) :
  agree a b h1 h2 -> agree a b h2 h3 -> agree a b h1 h3.
Proof. intros H12 H23 l Hl1 Hl2. rewrite H23, H12; done. Qed.

Lemma extends_refl (h : heap) : extends h h.
Proof. split; [done|apply agree_refl]. Qed.

Lemma extends_trans (h1 h2 h3 : heap) : extends h1 h2 -> extends h2 h3 -> extends h1 h3.
Proof.
  intros [Hl12 H12] [Hl23 H23]. split; [lia|].
  intros l Hl1 Hl2. rewrite H23, H12; [done|lia..].
Qed.

Lemma extends_app (h : heap) (c : cell) : extends h (h ++ [c]).
Proof.
  split; [rewrite length_app; simpl; lia|].
  intros l _ Hl. by rewrite lookup_app_l.
Qed.

(** Writing a cell that [h] does not have keeps an extension of [h]. *)
Lemma extends_insert (h h' : heap) (l : loc) (c : cell) :
  extends h h' -> length h <= l -> extends h (<[l := c]> h').
Proof.
  intros [Hlen Hag] Hl. split; [by rewrite length_insert|].
  intros j Hj1 Hj2. rewrite list_lookup_insert_ne by lia. by apply Hag.
Qed.

Lemma agree_insert (a b : nat) (h : heap) (l : loc) (c : cell) :
  l < a \/ b <= l -> agree a b h (<[l := c]> h).
Proof. intros Hl j Hj1 Hj2. rewrite list_lookup_insert_ne by lia. done. Qed.

Section Confined.
Context {T V : Type} (rd : heap -> T -> option V).

Lemma confined_read (a b : nat) (h : heap) (x : T) (v : V) :
  confined rd a b h x v -> rd h x = Some v.
Proof. intros H. apply H, agree_refl. Qed.

Lemma confined_weaken (a b a' b' : nat) (h : heap) (x : T) (v : V) :
  confined rd a b h x v -> a' <= a -> b <= b' -> confined rd a' b' h x v.
Proof. intros H Ha Hb h' Hag. apply H. by eapply agree_weaken. Qed.

Lemma confined_agree (a b : nat) (h h1 : heap) (x : T) (v : V) :
  confined rd a b h x v -> agree a b h h1 -> confined rd a b h1 x v.
Proof. intros H Hag h' Hag'. apply H. by eapply agree_trans. Qed.

(** What is confined to cells of [h] stays so when the heap grows. *)
Lemma confined_grow (a : nat) (h h' : heap) (x : T) (v : V) :
  confined rd a (length h) h x v -> extends h h' -> confined rd a (length h') h' x v.
Proof.
  intros H [Hlen Hag]. eapply confined_weaken; [|done..].
  eapply confined_agree; [done|]. eapply agree_weaken; [done|lia..].
Qed.

Lemma wf_extends `{!Wf rd} (h h' : heap) (x : T) (v : V) :
  rd h x = Some v -> extends h h' -> rd h' x = Some v.
Proof. intros Hrd [_ Hag]. by eapply wf. Qed.

End Confined.

Lemma wp_ret {A : Type} (x : A) (h : heap) (Q : A -> heap -> Prop) :
  Q x h -> wp (mret x) h Q.
Proof. intros HQ. by exists x, h. Qed.

Lemma wp_bind {A B : Type} (m : M A) (f : A -> M B) (h : heap) (Q : B -> heap -> Prop) :
  wp m h (fun x h' => wp (f x) h' Q) -> wp (m ≫= f) h Q.
Proof.
  intros (x & h' & Hm & y & h'' & Hf & HQ). exists y, h''. split; [|done].
  unfold mbind, M_bind. by rewrite Hm.
Qed.

Lemma wp_mono {A : Type} (m : M A) (h : heap) (Q Q' : A -> heap -> Prop) :
  wp m h Q -> (forall x h', Q x h' -> Q' x h') -> wp m h Q'.
Proof. intros (x & h' & Hm & HQ) HQQ. exists x, h'. auto. Qed.

Lemma wp_fetch (t : Tag) (l : loc) (h : heap) (c : cell) (a : list (tyOf t))
  (Q : list (tyOf t) -> heap -> Prop) :
  h !! l = Some c -> proj t c = Some a -> Q a h -> wp (fetch t l) h Q.
Proof. intros Hl Hc HQ. exists a, h. split; [|done]. unfold fetch. by rewrite Hl, Hc. Qed.

Lemma wp_len (t : Tag) (l : loc) (h : heap) (c : cell) (a : list (tyOf t))
  (Q : nat -> heap -> Prop) :
  h !! l = Some c -> proj t c = Some a -> Q (length a) h -> wp (len t l) h Q.
Proof.
  intros Hl Hc HQ. unfold len. apply wp_bind. eapply wp_fetch; [done..|]. by apply wp_ret.
Qed.

Lemma wp_index (t : Tag) (l : loc) (i : nat) (h : heap) (c : cell) (a : list (tyOf t))
  (x : tyOf t) (Q : tyOf t -> heap -> Prop) :
  h !! l = Some c -> proj t c = Some a -> a !! i = Some x -> Q x h -> wp (index t l i) h Q.
Proof.
  intros Hl Hc Hi HQ. unfold index. apply wp_bind. eapply wp_fetch; [done..|].
  rewrite Hi. by apply wp_ret.
Qed.

Lemma wp_make (t : Tag) (n : nat) (h : heap) (Q : loc -> heap -> Prop) :
  Q (length h) (h ++ [inj t (replicate n (zero t))]) -> wp (make t n) h Q.
Proof. intros HQ. by eexists _, _. Qed.

Lemma wp_put (t : Tag) (l : loc) (a : list (tyOf t)) (h : heap) (Q : unit -> heap -> Prop) :
  l < length h -> Q tt (<[l := inj t a]> h) -> wp (put t l a) h Q.
Proof.
  intros Hl HQ. exists tt, (<[l := inj t a]> h). split; [|done].
  unfold put. by destruct (decide (l < length h)).
Qed.

Lemma wp_assign (t : Tag) (l : loc) (i : nat) (y : tyOf t) (h : heap) (a : list (tyOf t))
  (Q : unit -> heap -> Prop) :
  h !! l = Some (inj t a) -> i < length a ->
  Q tt (<[l := inj t (<[i := y]> a)]> h) -> wp (assign t l i y) h Q.
Proof.
  intros Hl Hi HQ. unfold assign. apply wp_bind.
  eapply wp_fetch; [done|apply proj_inj|].
  destruct (decide (i < length a)); [|done].
  apply wp_put; [by eapply lookup_lt_Some|done].
Qed.

End HeapFacts.

Section Slices.
Import deepcopy.
Context {K : K8s}.
#[local] Open Scope nat_scope.
#[local] Open Scope list_scope.

#[global] Instance plain_wf (T : Type) : Wf (@plain K T).
Proof. by intros h x v Hr h' _. Qed.

#[global] Instance plain_copies (T : Type) : Copies (@plain K T) assign_plain.
Proof.
  intros h x v Hr. apply wp_ret. split; [apply extends_refl|]. by intros h' _.
Qed.

Lemma Forall2_plain (T : Type) (h : heap) (a vs : list T) :
  Forall2 (fun x v => plain h x = Some v) a vs <-> vs = a.
Proof.
  split.
  - induction 1 as [|x v a vs Hx _ IH]; [done|]. injection Hx as ->. by rewrite IH.
  - intros ->. induction a; by constructor.
Qed.

Context (t : Tag) {V : Type} (rd : heap -> tyOf t -> option V).

Lemma read_slice_inv (h : heap) (l : loc) (w : option (list V)) :
  read_slice t rd h (Some l) = Some w ->
  exists c a vs, h !! l = Some c /\ proj t c = Some a /\
    Forall2 (fun x v => rd h x = Some v) a vs /\ w = Some vs.
Proof.
  unfold read_slice. destruct (h !! l) as [c|]; [|done].
  destruct (proj t c) as [a|] eqn:Hc; [|done].
  destruct (mapM (rd h) a) as [vs|] eqn:Hm; [|done].
  intros [= <-]. exists c, a, vs. by rewrite <- mapM_Some.
Qed.

Lemma read_slice_intro (h : heap) (l : loc) (c : cell) (a : list (tyOf t)) (vs : list V) :
  h !! l = Some c -> proj t c = Some a -> Forall2 (fun x v => rd h x = Some v) a vs ->
  read_slice t rd h (Some l) = Some (Some vs).
Proof.
  intros Hl Hc Hall. unfold read_slice. rewrite Hl, Hc.
  apply mapM_Some in Hall. by rewrite Hall.
Qed.

Lemma read_ptr_inv (h : heap) (l : loc) (w : option V) :
  read_ptr t rd h (Some l) = Some w ->
  exists c x v, h !! l = Some c /\ proj t c = Some [x] /\ rd h x = Some v /\ w = Some v.
Proof.
  unfold read_ptr. destruct (h !! l) as [c|]; [|done].
  destruct (proj t c) as [[|x [|? ?]]|] eqn:Hc; try done.
  destruct (rd h x) as [v|] eqn:Hx; [|done].
  intros [= <-]. by exists c, x, v.
Qed.

Lemma read_ptr_intro (h : heap) (l : loc) (c : cell) (x : tyOf t) (v : V) :
  h !! l = Some c -> proj t c = Some [x] -> rd h x = Some v ->
  read_ptr t rd h (Some l) = Some (Some v).
Proof. intros Hl Hc Hx. unfold read_ptr. by rewrite Hl, Hc, Hx. Qed.

#[global] Instance read_slice_wf `{!Wf rd} : Wf (read_slice t rd).
Proof.
  intros h [l|] w Hr h' Hag; [|done].
  apply read_slice_inv in Hr as (c & a & vs & Hl & Hc & Hall & ->).
  apply (read_slice_intro h' l c a vs); [|done|].
  - rewrite Hag; [done|lia|by eapply lookup_lt_Some].
  - revert Hall. apply Forall2_impl. intros x v Hx. by eapply wf.
Qed.

#[global] Instance read_ptr_wf `{!Wf rd} : Wf (read_ptr t rd).
Proof.
  intros h [l|] w Hr h' Hag; [|done].
  apply read_ptr_inv in Hr as (c & x & v & Hl & Hc & Hx & ->).
  apply (read_ptr_intro h' l c x v); [|done|].
  - rewrite Hag; [done|lia|by eapply lookup_lt_Some].
  - by eapply wf.
Qed.

(** The loop of [each_slice], from index [i] on: the array at [dst] holds
    the copies made so far, followed by zero values. *)
Lemma range_DeepCopyInto_spec (f : tyOf t -> M (tyOf t)) `{!Wf rd} `{!Copies rd f}
  (h : heap) (src : loc) (c : cell) (a : list (tyOf t)) (vs : list V) :
  h !! src = Some c -> proj t c = Some a ->
  Forall2 (fun x v => rd h x = Some v) a vs ->
  forall n i h1 ys,
    length a = i + n -> length ys = i ->
    extends h h1 -> length h < length h1 ->
    h1 !! length h = Some (inj t (ys ++ replicate n (zero t))) ->
    Forall2 (fun y v => confined rd (S (length h)) (length h1) h1 y v) ys (take i vs) ->
    wp (range_DeepCopyInto t f src (length h) i n) h1 (fun _ h2 =>
      extends h h2 /\
      exists ys', h2 !! length h = Some (inj t ys') /\
        Forall2 (fun y v => confined rd (S (length h)) (length h2) h2 y v) ys' vs).
Proof.
  intros Hsrc Hc Hall.
  pose proof (Forall2_length Hall) as Hlen.
  induction n as [|n IH]; intros i h1 ys Ha Hys Hext Hlt Hdst Hdone; simpl.
  - apply wp_ret. split; [done|]. exists ys. rewrite app_nil_r in Hdst. split; [done|].
    rewrite take_ge in Hdone by lia. done.
  - destruct (lookup_lt_is_Some_2 a i) as [x Hx]; [lia|].
    destruct (Forall2_lookup_l _ _ _ _ _ Hall Hx) as (v & Hv & Hrd).
    apply wp_bind. eapply wp_index; [|done..|].
    { destruct Hext as [_ Hag]. rewrite Hag; [done|lia|by eapply lookup_lt_Some]. }
    apply wp_bind.
    eapply wp_mono; [apply (copies h1 x v); by eapply wf_extends|].
    intros y h1' [Hext' Hy]. simpl.
    assert (Hdst' : h1' !! length h = Some (inj t (ys ++ replicate (S n) (zero t)))).
    { destruct Hext' as [_ Hag]. rewrite Hag; [done|lia..]. }
    apply wp_bind. eapply wp_assign; [done|rewrite length_app; simpl; lia|].
    rewrite insert_app_r_alt by lia. rewrite Hys, Nat.sub_diag. simpl.
    rewrite (cons_middle y ys), app_assoc.
    assert (Hlen' : length h1 <= length h1') by apply Hext'.
    apply (IH (S i) _ (ys ++ [y])).
    + lia.
    + rewrite length_app. simpl. lia.
    + apply extends_insert; [by eapply extends_trans|done].
    + rewrite length_insert. lia.
    + apply list_lookup_insert_eq. lia.
    + rewrite (take_S_r _ _ _ Hv), length_insert. apply Forall2_app.
      * revert Hdone. apply Forall2_impl. intros y' v' Hy'. simpl in Hy'.
        eapply confined_agree; [by eapply confined_grow|]. apply agree_insert. lia.
      * constructor; [|done].
        eapply confined_agree; [|apply agree_insert; lia].
        eapply confined_weaken; [done|lia..].
Qed.

#[global] Instance each_slice_copies (f : tyOf t -> M (tyOf t)) `{!Wf rd} `{!Copies rd f} :
  Copies (read_slice t rd) (each_slice t f).
Proof.
  intros h [src|] w Hr; simpl.
  2:{ injection Hr as <-. apply wp_ret. split; [apply extends_refl|]. by intros h' _. }
  apply read_slice_inv in Hr as (c & a & vs & Hsrc & Hc & Hall & ->).
  apply wp_bind. eapply wp_len; [done..|].
  apply wp_bind. apply wp_make.
  apply wp_bind.
  eapply wp_mono.
  { eapply (range_DeepCopyInto_spec f h src c a vs Hsrc Hc Hall (length a) 0 _ []);
      try done.
    - apply extends_app.
    - rewrite length_app. simpl. lia.
    - by rewrite list_lookup_middle. }
  intros _ h2 (Hext & ys' & Hdst & Hys'). simpl.
  apply wp_ret. split; [done|].
  intros h' Hag. apply (read_slice_intro h' (length h) (inj t ys') ys' vs); [|apply proj_inj|].
  - rewrite Hag; [done|lia|by eapply lookup_lt_Some].
  - revert Hys'. apply Forall2_impl. intros y v Hy. simpl in Hy.
    apply Hy. eapply agree_weaken; [done|lia..].
Qed.

(** What [DeepCopy] does on a pointer that is not nil: the copy is in the
    first cell allocated, and denotes its value by the later cells alone. *)
Lemma DeepCopy_spec (f : tyOf t -> M (tyOf t)) `{!Wf rd} `{!Copies rd f}
  (h : heap) (src : loc) (c : cell) (x : tyOf t) (v : V) :
  h !! src = Some c -> proj t c = Some [x] -> rd h x = Some v ->
  wp (DeepCopy t f (Some src)) h (fun r h' =>
    r = Some (length h) /\ extends h h' /\
    exists y, h' !! length h = Some (inj t [y]) /\
      confined rd (S (length h)) (length h') h' y v).
Proof.
  intros Hsrc Hc Hx. simpl.
  apply wp_bind. apply wp_make.
  pose proof (extends_app h (inj t (replicate 1 (zero t)))) as Hext1.
  set (h1 := h ++ [inj t (replicate 1 (zero t))]) in *.
  assert (Hlen1 : length h1 = S (length h)).
  { unfold h1. rewrite length_app. simpl. lia. }
  apply wp_bind. eapply wp_index; [|done|reflexivity|].
  { destruct Hext1 as [_ Hag]. rewrite Hag; [done|lia|by eapply lookup_lt_Some]. }
  apply wp_bind.
  eapply wp_mono; [apply (copies h1 x v); by eapply wf_extends|].
  intros y h2 [Hext2 Hy]. simpl.
  assert (Hlen2 : length h1 <= length h2) by apply Hext2.
  apply wp_bind. eapply wp_assign.
  { destruct Hext2 as [_ Hag]. rewrite Hag; [|lia..].
    unfold h1. by rewrite list_lookup_middle. }
  { simpl. lia. }
  simpl. apply wp_ret. split; [done|]. split.
  { apply extends_insert; [by eapply extends_trans|done]. }
  exists y. split; [apply list_lookup_insert_eq; lia|].
  rewrite length_insert.
  eapply confined_agree; [|apply agree_insert; lia].
  eapply confined_weaken; [done|lia..].
Qed.

#[global] Instance DeepCopy_copies (f : tyOf t -> M (tyOf t)) `{!Wf rd} `{!Copies rd f} :
  Copies (read_ptr t rd) (DeepCopy t f).
Proof.
  intros h [src|] w Hr.
  2:{ injection Hr as <-. apply wp_ret. split; [apply extends_refl|]. by intros h' _. }
  apply read_ptr_inv in Hr as (c & x & v & Hsrc & Hc & Hx & ->).
  eapply wp_mono; [by eapply DeepCopy_spec|].
  intros r h' (-> & Hext & y & Hdst & Hy). split; [done|].
  intros h'' Hag. apply (read_ptr_intro h'' (length h) (inj t [y]) y v); [|apply proj_inj|].
  - rewrite Hag; [done|lia|by eapply lookup_lt_Some].
  - apply Hy. eapply agree_weaken; [done|lia..].
Qed.

(** What a slice denotes by the cells from [a] up to [b] alone has its
    backing array among them. *)
Lemma confined_slice_window (a b : nat) (h : heap) (l : loc) (w : option (list V)) :
  confined (read_slice t rd) a b h (Some l) w -> a <= l < b.
Proof.
  intros Hc.
  destruct (decide (a <= l < b)) as [|Hout]; [done|exfalso].
  pose proof (confined_read _ _ _ _ _ _ Hc) as Hr.
  apply read_slice_inv in Hr as (c & ys & vs & Hl & _ & _ & _).
  set (t' := if decide (t = TByte) then TString else TByte).
  assert (Hne : t' <> t) by (unfold t'; destruct (decide (t = TByte)); congruence).
  specialize (Hc (<[l := inj t' []]> h)).
  unfold read_slice in Hc.
  rewrite list_lookup_insert_eq, (proj_other t t' [] Hne) in Hc
    by (by eapply lookup_lt_Some).
  discriminate Hc. apply agree_insert. lia.
Qed.

(** And its elements denote their values by these cells alone. *)
Lemma confined_slice_elems (a b : nat) (h : heap) (l : loc) (c : cell)
  (ys : list (tyOf t)) (vs : list V) :
  confined (read_slice t rd) a b h (Some l) (Some vs) ->
  h !! l = Some c -> proj t c = Some ys ->
  Forall2 (fun y v => confined rd a b h y v) ys vs.
Proof.
  intros Hc Hl Hys.
  pose proof (confined_slice_window _ _ _ _ _ Hc) as Hwin.
  assert (Hall : forall h', agree a b h h' -> Forall2 (fun y v => rd h' y = Some v) ys vs).
  { intros h' Hag. specialize (Hc h' Hag).
    apply read_slice_inv in Hc as (c' & ys' & vs' & Hl' & Hys' & Hall & [= <-]).
    rewrite Hag, Hl in Hl' by lia. injection Hl' as <-. congruence. }
  apply Forall2_same_length_lookup. split.
  - by eapply Forall2_length, (Hall h), agree_refl.
  - intros i y v Hy Hv h' Hag.
    by eapply (Forall2_lookup_lr _ _ _ i y v (Hall h' Hag)).
Qed.

End Slices.

Section Structs.
Import deepcopy.
Context {K : K8s} {D : K8sDeepCopy} {L : K8sLaws}.
#[local] Open Scope nat_scope.
#[local] Open Scope list_scope.

#[global] Instance copy_slice_copies (t : Tag) : Copies (read_slice t plain) (copy_slice t).
Proof.
  intros h [src|] w Hr; simpl.
  2:{ injection Hr as <-. apply wp_ret. split; [apply extends_refl|]. by intros h' _. }
  apply read_slice_inv in Hr as (c & a & vs & Hsrc & Hc & Hall & ->).
  apply Forall2_plain in Hall as ->.
  apply wp_bind. eapply wp_len; [done..|].
  apply wp_bind. apply wp_make.
  pose proof (extends_app h (inj t (replicate (length a) (zero t)))) as Hext1.
  set (h1 := h ++ [inj t (replicate (length a) (zero t))]) in *.
  assert (Hlen1 : length h1 = S (length h)).
  { unfold h1. rewrite length_app. simpl. lia. }
  apply wp_bind. unfold copy.
  apply wp_bind. eapply wp_fetch; [|done|].
  { destruct Hext1 as [_ Hag]. rewrite Hag; [done|lia|by eapply lookup_lt_Some]. }
  apply wp_bind. eapply wp_fetch; [|apply proj_inj|].
  { unfold h1. by rewrite list_lookup_middle. }
  rewrite length_replicate, Nat.min_id, take_ge, drop_ge, app_nil_r
    by (rewrite ?length_replicate; lia).
  apply wp_put; [lia|].
  apply wp_ret. split.
  { apply extends_insert; [done|lia]. }
  intros h' Hag. rewrite length_insert in Hag.
  apply (read_slice_intro t plain h' (length h) (inj t a) a a); [|apply proj_inj|].
  - rewrite Hag; [|lia..]. apply list_lookup_insert_eq. lia.
  - by apply Forall2_plain.
Qed.

#[global] Instance ext_read_wf (k : Kind) : Wf (ext_read k).
Proof. apply ext_wf. Qed.

#[global] Instance ext_DeepCopyInto_copies (k : Kind) : Copies (ext_read k) (ext_DeepCopyInto k).
Proof. apply ext_copies. Qed.

(** One field of a struct: it was readable in [h0], the copy so far has
    led to [h]; the field is copied, and its copy is confined to the cells
    allocated since [h0]. *)
Lemma wp_field {T V A : Type} (rd : heap -> T -> option V) (f : T -> M T)
  `{!Wf rd} `{!Copies rd f} (h0 h : heap) (x : T) (v : V) (k : T -> M A)
  (Q : A -> heap -> Prop) :
  rd h0 x = Some v -> extends h0 h ->
  (forall y h', extends h0 h' -> extends h h' ->
     confined rd (length h0) (length h') h' y v -> wp (k y) h' Q) ->
  wp (f x ≫= k) h Q.
Proof.
  intros Hrd Hext Hk. apply wp_bind.
  eapply wp_mono; [apply (copies h x v); by eapply wf_extends|].
  intros y h' [Hext' Hy]. simpl. apply Hk; [by eapply extends_trans|done|].
  eapply confined_weaken; [done|apply Hext|done].
Qed.

#[global] Instance Time_DeepCopyInto_copies : Copies plain Time_DeepCopyInto.
Proof. apply plain_copies. Qed.

#[global] Instance TrialCondition_DeepCopyInto_copies :
  Copies plain TrialCondition_DeepCopyInto.
Proof.
  intros h [ty st probe transition reason message] v [= <-].
  exists (v1alpha1.mkTrialCondition ty st probe transition reason message), h.
  split; [reflexivity|]. split; [apply extends_refl|]. by intros h' _.
Qed.

Lemma bind_Some_intro {A B : Type} (m : option A) (g : A -> option B) (a : A) (b : B) :
  m = Some a -> g a = Some b -> m ≫= g = Some b.
Proof. by intros -> ?. Qed.

Ltac head_of t := match t with ?f _ => head_of f | _ => t end.

(** A struct is read field by field: take the reading apart. *)
Ltac read_fields H :=
  repeat match type of H with
  | mbind _ ?m = Some _ =>
      let E := fresh "E" in destruct m eqn:E; simpl in H; [|discriminate H]
  end;
  injection H as <-.

(** [Wf] for a struct: every field is read in [h'] as it was in [h]. *)
Ltac struct_wf :=
  let h := fresh "h" in let x := fresh "x" in let v := fresh "v" in
  let Hr := fresh "Hr" in let h' := fresh "h'" in let Hag := fresh "Hag" in
  match goal with
  | |- Wf ?rd =>
      let c := head_of rd in intros h x v Hr h' Hag; unfold c in Hr |- *
  end;
  read_fields Hr;
  repeat (eapply bind_Some_intro;
          [match goal with E : _ = Some _ |- _ => exact (wf _ _ _ E h' Hag) end|]);
  reflexivity.

(** [Copies] for a struct: the fields are copied one after the other, each
    copy confined to the cells allocated since the start. *)
Ltac copy_fields h0 :=
  repeat match goal with
  | E : ?rd h0 ?y = Some ?w, Hext : extends h0 ?h |- wp (?f ?y ≫= ?k) ?h ?Q =>
      let y' := fresh "y" in let h' := fresh "h" in
      let Hext0 := fresh "Hext" in let Hstep := fresh "Hstep" in let Hc := fresh "Hc" in
      apply (wp_field rd f h0 h y w k Q E Hext); clear E;
      intros y' h' Hext0 Hstep Hc;
      repeat match goal with
      | Hc' : confined _ _ (length h) h _ _ |- _ =>
          apply (fun H => confined_grow _ _ _ _ _ _ H Hstep) in Hc'
      end;
      clear Hext Hstep; simpl
  end.

Ltac struct_copies :=
  let h := fresh "h" in let x := fresh "x" in let v := fresh "v" in
  let Hr := fresh "Hr" in let Hext := fresh "Hext" in
  let h' := fresh "h'" in let Hag := fresh "Hag" in
  match goal with
  | |- Copies ?rd ?f =>
      let c := head_of rd in
      let d := head_of f in
      intros h x v Hr; unfold c in Hr; read_fields Hr;
      pose proof (extends_refl h) as Hext;
      unfold d;
      copy_fields h;
      apply wp_ret; split; [assumption|];
      intros h' Hag; unfold c; simpl
  end;
  repeat (eapply bind_Some_intro;
          [match goal with Hc : confined _ _ _ _ _ _ |- _ => exact (Hc h' Hag) end|]);
  reflexivity.

#[global] Instance read_PatchOperation_wf : Wf read_PatchOperation.
Proof. struct_wf. Qed.

#[global] Instance PatchOperation_DeepCopyInto_copies :
  Copies read_PatchOperation PatchOperation_DeepCopyInto.
Proof. struct_copies. Qed.

#[global] Instance read_HelmValueSource_wf : Wf read_HelmValueSource.
Proof. struct_wf. Qed.

#[global] Instance HelmValueSource_DeepCopyInto_copies : Copies read_HelmValueSource HelmValueSource_DeepCopyInto.
Proof. struct_copies. Qed.

#[global] Instance read_HelmValue_wf : Wf read_HelmValue.
Proof. struct_wf. Qed.

#[global] Instance HelmValue_DeepCopyInto_copies : Copies read_HelmValue HelmValue_DeepCopyInto.
Proof. struct_copies. Qed.

#[global] Instance read_HelmValuesFromSource_wf : Wf read_HelmValuesFromSource.
Proof. struct_wf. Qed.

#[global] Instance HelmValuesFromSource_DeepCopyInto_copies : Copies read_HelmValuesFromSource HelmValuesFromSource_DeepCopyInto.
Proof. struct_copies. Qed.

#[global] Instance read_SetupTask_wf : Wf read_SetupTask.
Proof. struct_wf. Qed.

#[global] Instance SetupTask_DeepCopyInto_copies : Copies read_SetupTask SetupTask_DeepCopyInto.
Proof. struct_copies. Qed.

#[global] Instance read_TrialReadinessGate_wf : Wf read_TrialReadinessGate.
Proof. struct_wf. Qed.

#[global] Instance TrialReadinessGate_DeepCopyInto_copies : Copies read_TrialReadinessGate TrialReadinessGate_DeepCopyInto.
Proof. struct_copies. Qed.

#[global] Instance read_ReadinessCheck_wf : Wf read_ReadinessCheck.
Proof. struct_wf. Qed.

#[global] Instance ReadinessCheck_DeepCopyInto_copies : Copies read_ReadinessCheck ReadinessCheck_DeepCopyInto.
Proof. struct_copies. Qed.

#[global] Instance read_TrialSpec_wf : Wf read_TrialSpec.
Proof. struct_wf. Qed.

#[global] Instance TrialSpec_DeepCopyInto_copies : Copies read_TrialSpec TrialSpec_DeepCopyInto.
Proof. struct_copies. Qed.

#[global] Instance read_TrialStatus_wf : Wf read_TrialStatus.
Proof. struct_wf. Qed.

#[global] Instance TrialStatus_DeepCopyInto_copies : Copies read_TrialStatus TrialStatus_DeepCopyInto.
Proof. struct_copies. Qed.

#[global] Instance read_Trial_wf : Wf read_Trial.
Proof. struct_wf. Qed.

#[global] Instance Trial_DeepCopyInto_copies : Copies read_Trial Trial_DeepCopyInto.
Proof. struct_copies. Qed.

#[global] Instance read_TrialList_wf : Wf read_TrialList.
Proof. struct_wf. Qed.

#[global] Instance TrialList_DeepCopyInto_copies : Copies read_TrialList TrialList_DeepCopyInto.
Proof. struct_copies. Qed.

#[global] Instance read_TrialTemplateSpec_wf : Wf read_TrialTemplateSpec.
Proof. struct_wf. Qed.

#[global] Instance TrialTemplateSpec_DeepCopyInto_copies : Copies read_TrialTemplateSpec TrialTemplateSpec_DeepCopyInto.
Proof. struct_copies. Qed.

#[global] Instance read_SumConstraintParameter_wf : Wf read_SumConstraintParameter.
Proof. struct_wf. Qed.

#[global] Instance SumConstraintParameter_DeepCopyInto_copies : Copies read_SumConstraintParameter SumConstraintParameter_DeepCopyInto.
Proof. struct_copies. Qed.

#[global] Instance read_SumConstraint_wf : Wf read_SumConstraint.
Proof. struct_wf. Qed.

#[global] Instance SumConstraint_DeepCopyInto_copies : Copies read_SumConstraint SumConstraint_DeepCopyInto.
Proof. struct_copies. Qed.

#[global] Instance read_Constraint_wf : Wf read_Constraint.
Proof. struct_wf. Qed.

#[global] Instance Constraint_DeepCopyInto_copies : Copies read_Constraint Constraint_DeepCopyInto.
Proof. struct_copies. Qed.

#[global] Instance read_Metric_wf : Wf read_Metric.
Proof. struct_wf. Qed.

#[global] Instance Metric_DeepCopyInto_copies : Copies read_Metric Metric_DeepCopyInto.
Proof. struct_copies. Qed.

#[global] Instance read_NamespaceTemplateSpec_wf : Wf read_NamespaceTemplateSpec.
Proof. struct_wf. Qed.

#[global] Instance NamespaceTemplateSpec_DeepCopyInto_copies : Copies read_NamespaceTemplateSpec NamespaceTemplateSpec_DeepCopyInto.
Proof. struct_copies. Qed.

#[global] Instance read_PatchTemplate_wf : Wf read_PatchTemplate.
Proof. struct_wf. Qed.

#[global] Instance PatchTemplate_DeepCopyInto_copies : Copies read_PatchTemplate PatchTemplate_DeepCopyInto.
Proof. struct_copies. Qed.

#[global] Instance read_ExperimentSpec_wf : Wf read_ExperimentSpec.
Proof. struct_wf. Qed.

#[global] Instance ExperimentSpec_DeepCopyInto_copies : Copies read_ExperimentSpec ExperimentSpec_DeepCopyInto.
Proof. struct_copies. Qed.

#[global] Instance read_Experiment_wf : Wf read_Experiment.
Proof. struct_wf. Qed.

#[global] Instance Experiment_DeepCopyInto_copies : Copies read_Experiment Experiment_DeepCopyInto.
Proof. struct_copies. Qed.

#[global] Instance read_ExperimentList_wf : Wf read_ExperimentList.
Proof. struct_wf. Qed.

#[global] Instance ExperimentList_DeepCopyInto_copies : Copies read_ExperimentList ExperimentList_DeepCopyInto.
Proof. struct_copies. Qed.

#[global] Instance Assignment_DeepCopyInto_copies : Copies plain Assignment_DeepCopyInto.
Proof. apply plain_copies. Qed.

#[global] Instance ConfigMapHelmValuesFromSource_DeepCopyInto_copies : Copies plain ConfigMapHelmValuesFromSource_DeepCopyInto.
Proof. apply plain_copies. Qed.

#[global] Instance ExperimentStatus_DeepCopyInto_copies : Copies plain ExperimentStatus_DeepCopyInto.
Proof. apply plain_copies. Qed.

#[global] Instance Optimization_DeepCopyInto_copies : Copies plain Optimization_DeepCopyInto.
Proof. apply plain_copies. Qed.

#[global] Instance OrderConstraint_DeepCopyInto_copies : Copies plain OrderConstraint_DeepCopyInto.
Proof. apply plain_copies. Qed.

#[global] Instance PatchReadinessGate_DeepCopyInto_copies : Copies plain PatchReadinessGate_DeepCopyInto.
Proof. apply plain_copies. Qed.

#[global] Instance Parameter_DeepCopyInto_copies : Copies plain Parameter_DeepCopyInto.
Proof. apply plain_copies. Qed.

#[global] Instance ParameterSelector_DeepCopyInto_copies : Copies plain ParameterSelector_DeepCopyInto.
Proof. apply plain_copies. Qed.

#[global] Instance Value_DeepCopyInto_copies : Copies plain Value_DeepCopyInto.
Proof. apply plain_copies. Qed.

Lemma DeepCopy_returns_a_copy (t : Tag) {V : Type} (rd : heap -> tyOf t -> option V)
  (f : tyOf t -> M (tyOf t)) `{!Wf rd} `{!Copies rd f} (h : heap) :
  returns_a_copy t rd (DeepCopy t f) h.
Proof.
  intros p w Hr.
  destruct (copies (rd:=read_ptr t rd) h p w Hr) as (q & h' & Hrun & _ & Hc).
  exists q, h'. split; [done|]. by eapply confined_read.
Qed.

Lemma read_PatchOperation_Data (h : heap) (x : PatchOperation ref) (v : PatchOperation option) :
  read_PatchOperation h x = Some v ->
  read_slice TByte plain h (Data x) = Some (Data v).
Proof. intros Hr. unfold read_PatchOperation in Hr. read_fields Hr. done. Qed.

Lemma read_Trial_fields (h : heap) (x : Trial ref ExtH) (v : Trial option ExtV) :
  read_Trial h x = Some v ->
  read_slice TAssignment plain h (Assignments (Spec x)) = Some (Assignments (Spec v)) /\
  read_slice TPatchOperation read_PatchOperation h (PatchOperations (Spec x))
    = Some (PatchOperations (Spec v)) /\
  read_slice TValue plain h (Values (Spec x)) = Some (Values (Spec v)) /\
  read_slice TSetupTask read_SetupTask h (SetupTasks (Spec x)) = Some (SetupTasks (Spec v)) /\
  read_slice TTrialCondition plain h (Conditions (Status x)) = Some (Conditions (Status v)).
Proof.
  intros Hr. unfold read_Trial in Hr. read_fields Hr.
  match goal with E : read_TrialSpec _ _ = Some _ |- _ =>
    unfold read_TrialSpec in E; read_fields E end.
  match goal with E : read_TrialStatus _ _ = Some _ |- _ =>
    unfold read_TrialStatus in E; read_fields E end.
  simpl. done.
Qed.

Lemma addr_window {V : Type} (t : Tag) (rd : heap -> tyOf t -> option V) (a b : nat)
  (h : heap) (s : option loc) (w : option (list V)) :
  confined (read_slice t rd) a b h s w -> Forall (fun l => a <= l < b) (addr s).
Proof.
  destruct s as [l|]; simpl; [|constructor].
  intros Hc. constructor; [|constructor]. by eapply confined_slice_window.
Qed.

Lemma data_arrays_window (a b : nat) (h : heap) (s : option loc)
  (w : option (list (PatchOperation option))) :
  confined (read_slice TPatchOperation read_PatchOperation) a b h s w ->
  Forall (fun l => a <= l < b) (data_arrays h s).
Proof.
  destruct s as [l|]; simpl; [|constructor]. intros Hc.
  pose proof (confined_read _ _ _ _ _ _ Hc) as Hr.
  apply read_slice_inv in Hr as (c & ops & vs & Hl & Hops & _ & ->).
  rewrite Hl, Hops.
  pose proof (confined_slice_elems _ _ _ _ _ _ _ _ _ Hc Hl Hops) as Hall.
  clear Hc Hl Hops. induction Hall as [|op vop ops vs Hop _ IH]; simpl; [constructor|].
  apply Forall_app. split; [|done].
  eapply (addr_window TByte plain). intros h' Hag.
  apply read_PatchOperation_Data, Hop, Hag.
Qed.

(** The arrays behind the slices of a trial are among the cells by which
    the trial denotes its value. *)
Lemma backing_arrays_window (a b : nat) (h : heap) (x : Trial ref ExtH)
  (v : Trial option ExtV) :
  confined read_Trial a b h x v -> Forall (fun l => a <= l < b) (backing_arrays h x).
Proof.
  intros Hc. unfold backing_arrays.
  repeat (apply Forall_app; split).
  - eapply (addr_window TAssignment plain). intros h' Hag.
    apply (read_Trial_fields h' x v (Hc h' Hag)).
  - eapply (addr_window TPatchOperation read_PatchOperation). intros h' Hag.
    apply (read_Trial_fields h' x v (Hc h' Hag)).
  - eapply data_arrays_window. intros h' Hag.
    apply (read_Trial_fields h' x v (Hc h' Hag)).
  - eapply (addr_window TValue plain). intros h' Hag.
    apply (read_Trial_fields h' x v (Hc h' Hag)).
  - eapply (addr_window TSetupTask read_SetupTask). intros h' Hag.
    apply (read_Trial_fields h' x v (Hc h' Hag)).
  - eapply (addr_window TTrialCondition plain). intros h' Hag.
    apply (read_Trial_fields h' x v (Hc h' Hag)).
Qed.

(** C4. [DeepCopy] of a trial [t] at [p], which denotes the value [v] in
    the heap [h], returns a new address: the first cell allocated. The
    cell holds a trial [t'] that denotes the same value [v]; no cell of [h]
    has been written; [t] denotes [v] by the cells of [h] alone, and [t']
    by the cells allocated after its own alone. So the backing arrays of
    Assignments, PatchOperations and their Data, Values, SetupTasks and
    Conditions lie below [length h] for [t] and above it for [t'], and
    writing any cell of the one leaves the value of the other. *)
Theorem Trial_DeepCopy_is_deep (h : heap) (p : loc) (t : Trial ref ExtH)
  (v : Trial option ExtV) :
  h !! p = Some (inj TTrial [t]) ->
  read_Trial h t = Some v ->
  exists (t' : Trial ref ExtH) (h' : heap),
    Trial_DeepCopy (Some p) h = Some (Some (length h), h') /\
    p <> length h /\
    h' !! length h = Some (inj TTrial [t']) /\
    extends h h' /\
    read_Trial h' t' = Some v /\
    read_Trial h' t = Some v /\
    confined read_Trial 0 (length h) h' t v /\
    confined read_Trial (S (length h)) (length h') h' t' v /\
    Forall (fun l => l < length h) (backing_arrays h' t) /\
    Forall (fun l => length h < l < length h') (backing_arrays h' t') /\
    (forall l c, length h <= l -> read_Trial (<[l := c]> h') t = Some v) /\
    (forall l c, l <= length h -> read_Trial (<[l := c]> h') t' = Some v).
Proof.
  intros Hp Hr.
  destruct (DeepCopy_spec TTrial read_Trial Trial_DeepCopyInto h p _ t v Hp
              (proj_inj TTrial [t]) Hr)
    as (r & h' & Hrun & -> & Hext & t' & Hq & Hc').
  assert (Hc : confined read_Trial 0 (length h) h' t v).
  { eapply confined_agree; [by apply wf|apply Hext]. }
  exists t', h'. split; [exact Hrun|].
  split; [apply lookup_lt_Some in Hp; lia|].
  split; [exact Hq|]. split; [exact Hext|].
  split; [by eapply confined_read|]. split; [by eapply confined_read|].
  split; [exact Hc|]. split; [exact Hc'|].
  split; [|split; [|split]].
  - pose proof (backing_arrays_window _ _ _ _ _ Hc) as Hb. revert Hb.
    apply Forall_impl. intros l. lia.
  - pose proof (backing_arrays_window _ _ _ _ _ Hc') as Hb. revert Hb.
    apply Forall_impl. intros l. lia.
  - intros l c Hl. apply Hc, agree_insert. lia.
  - intros l c Hl. apply Hc', agree_insert. lia.
Qed.

(** C10. Every generated [DeepCopy] returns nil on a nil receiver and leaves
    the heap as it is; and on every receiver, nil or not, it runs without
    fault and returns a pointer that denotes what the receiver denotes. *)
Theorem DeepCopy_nil (h : heap) :
  (Assignment_DeepCopy None h = Some (None, h) /\
   ConfigMapHelmValuesFromSource_DeepCopy None h = Some (None, h) /\
   Constraint_DeepCopy None h = Some (None, h) /\
   Experiment_DeepCopy None h = Some (None, h) /\
   ExperimentList_DeepCopy None h = Some (None, h) /\
   ExperimentSpec_DeepCopy None h = Some (None, h) /\
   ExperimentStatus_DeepCopy None h = Some (None, h) /\
   HelmValue_DeepCopy None h = Some (None, h) /\
   HelmValueSource_DeepCopy None h = Some (None, h) /\
   HelmValuesFromSource_DeepCopy None h = Some (None, h) /\
   Metric_DeepCopy None h = Some (None, h) /\
   NamespaceTemplateSpec_DeepCopy None h = Some (None, h) /\
   Optimization_DeepCopy None h = Some (None, h) /\
   OrderConstraint_DeepCopy None h = Some (None, h) /\
   Parameter_DeepCopy None h = Some (None, h) /\
   ParameterSelector_DeepCopy None h = Some (None, h) /\
   PatchOperation_DeepCopy None h = Some (None, h) /\
   PatchReadinessGate_DeepCopy None h = Some (None, h) /\
   PatchTemplate_DeepCopy None h = Some (None, h) /\
   ReadinessCheck_DeepCopy None h = Some (None, h) /\
   SetupTask_DeepCopy None h = Some (None, h) /\
   SumConstraint_DeepCopy None h = Some (None, h) /\
   SumConstraintParameter_DeepCopy None h = Some (None, h) /\
   Trial_DeepCopy None h = Some (None, h) /\
   TrialCondition_DeepCopy None h = Some (None, h) /\
   TrialList_DeepCopy None h = Some (None, h) /\
   TrialReadinessGate_DeepCopy None h = Some (None, h) /\
   TrialSpec_DeepCopy None h = Some (None, h) /\
   TrialStatus_DeepCopy None h = Some (None, h) /\
   TrialTemplateSpec_DeepCopy None h = Some (None, h) /\
   Value_DeepCopy None h = Some (None, h)) /\
  (returns_a_copy TAssignment plain Assignment_DeepCopy h /\
   returns_a_copy TConfigMapHelmValuesFromSource plain ConfigMapHelmValuesFromSource_DeepCopy h /\
   returns_a_copy TConstraint read_Constraint Constraint_DeepCopy h /\
   returns_a_copy TExperiment read_Experiment Experiment_DeepCopy h /\
   returns_a_copy TExperimentList read_ExperimentList ExperimentList_DeepCopy h /\
   returns_a_copy TExperimentSpec read_ExperimentSpec ExperimentSpec_DeepCopy h /\
   returns_a_copy TScalars plain ExperimentStatus_DeepCopy h /\
   returns_a_copy THelmValue read_HelmValue HelmValue_DeepCopy h /\
   returns_a_copy THelmValueSource read_HelmValueSource HelmValueSource_DeepCopy h /\
   returns_a_copy THelmValuesFromSource read_HelmValuesFromSource HelmValuesFromSource_DeepCopy h /\
   returns_a_copy TMetric read_Metric Metric_DeepCopy h /\
   returns_a_copy TNamespaceTemplateSpec read_NamespaceTemplateSpec NamespaceTemplateSpec_DeepCopy h /\
   returns_a_copy TScalars plain Optimization_DeepCopy h /\
   returns_a_copy TScalars plain OrderConstraint_DeepCopy h /\
   returns_a_copy TParameter plain Parameter_DeepCopy h /\
   returns_a_copy TParameterSelector plain ParameterSelector_DeepCopy h /\
   returns_a_copy TPatchOperation read_PatchOperation PatchOperation_DeepCopy h /\
   returns_a_copy TScalars plain PatchReadinessGate_DeepCopy h /\
   returns_a_copy TPatchTemplate read_PatchTemplate PatchTemplate_DeepCopy h /\
   returns_a_copy TReadinessCheck read_ReadinessCheck ReadinessCheck_DeepCopy h /\
   returns_a_copy TSetupTask read_SetupTask SetupTask_DeepCopy h /\
   returns_a_copy TSumConstraint read_SumConstraint SumConstraint_DeepCopy h /\
   returns_a_copy TSumConstraintParameter read_SumConstraintParameter SumConstraintParameter_DeepCopy h /\
   returns_a_copy TTrial read_Trial Trial_DeepCopy h /\
   returns_a_copy TTrialCondition plain TrialCondition_DeepCopy h /\
   returns_a_copy TTrialList read_TrialList TrialList_DeepCopy h /\
   returns_a_copy TTrialReadinessGate read_TrialReadinessGate TrialReadinessGate_DeepCopy h /\
   returns_a_copy TTrialSpec read_TrialSpec TrialSpec_DeepCopy h /\
   returns_a_copy TTrialStatus read_TrialStatus TrialStatus_DeepCopy h /\
   returns_a_copy TTrialTemplateSpec read_TrialTemplateSpec TrialTemplateSpec_DeepCopy h /\
   returns_a_copy TValue plain Value_DeepCopy h).
Proof. split; repeat split; apply DeepCopy_returns_a_copy; apply _. Qed.

End Structs.

Section DeepCopyExamples.
Import deepcopy.
#[local] Existing Instance boxes.
#[local] Existing Instance boxes_DeepCopy.
#[local] Open Scope nat_scope.
#[local] Open Scope list_scope.

(** The stand-in for the Kubernetes libraries meets what is assumed of
    them. *)
Lemma box_read_wf : Wf box_read.
Proof.
  intros h [l|] v Hr h' Hag; [|done].
  unfold box_read in *. destruct (h !! l) as [c|] eqn:Hl; [|done].
  rewrite Hag, Hl; [done|lia|by eapply lookup_lt_Some].
Qed.

Lemma box_DeepCopyInto_copies : Copies box_read box_DeepCopyInto.
Proof.
  intros h [src|] v Hr.
  2:{ injection Hr as <-. apply wp_ret. split; [apply extends_refl|]. by intros h' _. }
  unfold box_read in Hr. destruct (h !! src) as [c|] eqn:Hsrc; [|done].
  destruct (proj TExtCell c) as [[|s [|? ?]]|] eqn:Hc; try done. injection Hr as <-.
  unfold box_DeepCopyInto. apply wp_bind. eapply wp_fetch; [done..|].
  apply wp_bind. eexists _, _. split; [reflexivity|]. apply wp_ret.
  split; [apply extends_app|].
  intros h' Hag. unfold box_read.
  rewrite Hag, list_lookup_middle, proj_inj; [done..|lia|].
  rewrite length_app. simpl. lia.
Qed.

#[local] Instance boxes_laws : K8sLaws.
Proof. split; intros k; [apply box_read_wf|apply box_DeepCopyInto_copies]. Qed.

Lemma Trial_DeepCopy_is_deep_witness :
  example_heap !! 0 = Some (inj TTrial [example_trial]) /\
  exists v t' h',
    read_Trial example_heap example_trial = Some v /\
    Trial_DeepCopy (Some 0) example_heap = Some (Some 10, h') /\
    h' !! 10 = Some (inj TTrial [t']) /\
    read_Trial h' t' = Some v /\
    read_Trial h' example_trial = Some v /\
    Forall (fun l => l < 10) (backing_arrays h' example_trial) /\
    Forall (fun l => 10 < l < length h') (backing_arrays h' t').
Proof.
  split; [reflexivity|].
  eexists.
  assert (Hr : read_Trial example_heap example_trial = Some _) by (vm_compute; reflexivity).
  destruct (Trial_DeepCopy_is_deep example_heap 0 example_trial _ eq_refl Hr)
    as (t' & h' & Hrun & _ & Hq & _ & Hr' & Hr0 & _ & _ & Hb & Hb' & _ & _).
  exists t', h'. repeat split; assumption.
Defined.

Lemma DeepCopy_nil_witness :
  Trial_DeepCopy None example_heap = Some (None, example_heap) /\
  exists w q h',
    read_ptr TTrial read_Trial example_heap (Some 0) = Some w /\
    Trial_DeepCopy (Some 0) example_heap = Some (q, h') /\
    read_ptr TTrial read_Trial h' q = Some w.
Proof.
  destruct (DeepCopy_nil example_heap) as [Hn Hc].
  do 23 (destruct Hn as [_ Hn]; destruct Hc as [_ Hc]).
  destruct Hn as [Hnil _]. destruct Hc as [Hcopy _].
  split; [exact Hnil|].
  eexists.
  assert (Hr : read_ptr TTrial read_Trial example_heap (Some 0) = Some _)
    by (vm_compute; reflexivity).
  destruct (Hcopy (Some 0) _ Hr) as (q & h' & Hrun & Hr').
  exists q, h'. repeat split; assumption.
Defined.

End DeepCopyExamples.

(** * Further properties *)

(** ** The API client *)
Section ClientMore.
Import redskyapi.

(** X1. When the body is read to its end before the context is done, [Do]
    returns the response with what [ReadAll] returned, body and error, as
    they are; the body is closed by the deferred call alone, and what that
    call returns is not reported. *)
Theorem Do_read_completes_first (w : World) (ctx : Context) (req : Request)
  (resp : Response) :
  client_Do w (WithContext ctx req) = (Some resp, None) ->
  race w = ReadDoneFirst ->
  Do w (Some ctx) req =
    (Returned (Some resp) (fst (ReadAll w resp)) (snd (ReadAll w resp)),
     [RoundTrip (WithContext ctx req); GoReadAll resp; DeferredClose resp]).
Proof.
  intros Hrt Hrace. unfold Do, sent. rewrite Hrt.
  destruct (ReadAll w resp) as [body rerr]. by rewrite Hrace.
Qed.

(** X2. [Do] returns a nil error in one case only: the context is not nil,
    the round trip gave a response without error, and the body was read to
    its end without error before the context was done. The body returned
    is then the one read, and the response the one received. *)
Theorem Do_nil_error_only_after_full_read (w : World) (ctx : option Context)
  (req : Request) (r : option Response) (b : option (list byte)) :
  fst (Do w ctx req) = Returned r b None ->
  exists c resp,
    ctx = Some c /\
    client_Do w (WithContext c req) = (Some resp, None) /\
    race w = ReadDoneFirst /\
    ReadAll w resp = (b, None) /\
    r = Some resp.
Proof.
  unfold Do, sent. destruct ctx as [c|].
  - destruct (client_Do w (WithContext c req)) as [[resp|] [e|]] eqn:Hrt; try done.
    destruct (ReadAll w resp) as [body rerr] eqn:Hread.
    destruct (race w) as [why|] eqn:Hrace; simpl.
    + destruct (Body_Close w resp); done.
    + intros [= <- <- ->]. by exists c, resp.
  - destruct (client_Do w req) as [[resp|] [e|]]; try done.
    by destruct (ReadAll w resp).
Qed.


(** X4. [NewClient] returns a client or an error, never both and never
    neither. The error is that of [Authorize] when it fails; otherwise that
    of [ExperimentsURL] on the empty endpoint, which is not looked at when
    [Authorize] has failed. *)
Theorem NewClient_client_or_error (cfg : Config) (ctx : option Context)
  (tr : option RoundTripper) :
  (is_Some (fst (NewClient cfg ctx tr)) <-> snd (NewClient cfg ctx tr) = None) /\
  snd (NewClient cfg ctx tr) =
    match snd (Authorize cfg ctx tr) with
    | Some err => Some err
    | None => snd (ExperimentsURL cfg EmptyString)
    end.
Proof.
  unfold NewClient. destruct (Authorize cfg ctx tr) as [t [e|]]; simpl.
  - split; [|done]. split; [intros [x Hx]; discriminate | discriminate].
  - destruct (ExperimentsURL cfg EmptyString) as [u [e|]]; simpl.
    + split; [|done]. split; [intros [x Hx]; discriminate | discriminate].
    + split; [|done]. split; eauto.
Qed.

(** X5. The client that [NewClient] returns has a timeout of ten seconds,
    the transport that [Authorize] returned, and answers [URL] from the
    configuration it was given. *)
Theorem NewClient_configures_client (cfg : Config) (ctx : option Context)
  (tr : option RoundTripper) (hc : httpClient) :
  fst (NewClient cfg ctx tr) = Some hc ->
  Timeout (client hc) = 10 * Second /\
  Transport (client hc) = fst (Authorize cfg ctx tr) /\
  forall ep, URL hc ep = fst (ExperimentsURL cfg ep).
Proof.
  unfold NewClient. destruct (Authorize cfg ctx tr) as [t [e|]]; [done|].
  destruct (ExperimentsURL cfg EmptyString) as [u [e|]]; [done|].
  simpl. intros [= <-]. repeat split.
Qed.

End ClientMore.

Lemma Do_read_completes_first_witness :
  redskyapi.client_Do redskyapi.finished_world
    (redskyapi.WithContext redskyapi.example_context redskyapi.example_request)
    = (Some redskyapi.example_response, None) /\
  redskyapi.race redskyapi.finished_world = redskyapi.ReadDoneFirst /\
  redskyapi.Do redskyapi.finished_world (Some redskyapi.example_context)
    redskyapi.example_request =
    (redskyapi.Returned (Some redskyapi.example_response) (Some [x7b; x7d]) None,
     [redskyapi.RoundTrip
        (redskyapi.WithContext redskyapi.example_context redskyapi.example_request);
      redskyapi.GoReadAll redskyapi.example_response;
      redskyapi.DeferredClose redskyapi.example_response]).
Proof.
  split; [reflexivity|]. split; [reflexivity|].
  apply (Do_read_completes_first redskyapi.finished_world redskyapi.example_context
           redskyapi.example_request redskyapi.example_response); reflexivity.
Defined.

Lemma Do_nil_error_only_after_full_read_witness :
  fst (redskyapi.Do redskyapi.finished_world (Some redskyapi.example_context)
         redskyapi.example_request)
    = redskyapi.Returned (Some redskyapi.example_response) (Some [x7b; x7d]) None /\
  exists c resp,
    Some redskyapi.example_context = Some c /\
    redskyapi.client_Do redskyapi.finished_world
      (redskyapi.WithContext c redskyapi.example_request) = (Some resp, None) /\
    redskyapi.race redskyapi.finished_world = redskyapi.ReadDoneFirst /\
    redskyapi.ReadAll redskyapi.finished_world resp = (Some [x7b; x7d], None) /\
    Some redskyapi.example_response = Some resp.
Proof.
  split; [reflexivity|].
  apply (Do_nil_error_only_after_full_read redskyapi.finished_world
           (Some redskyapi.example_context) redskyapi.example_request).
  reflexivity.
Defined.

Lemma NewClient_configures_client_witness :
  exists hc,
    fst (redskyapi.NewClient redskyapi.example_config None
           (Some (redskyapi.mkRoundTripper "default"))) = Some hc /\
    redskyapi.Timeout (redskyapi.client hc) = 10 * redskyapi.Second /\
    redskyapi.Transport (redskyapi.client hc)
      = fst (redskyapi.Authorize redskyapi.example_config None
               (Some (redskyapi.mkRoundTripper "default"))) /\
    forall ep, redskyapi.URL hc ep = fst (redskyapi.ExperimentsURL redskyapi.example_config ep).
Proof.
  eexists. split; [reflexivity|].
  apply (NewClient_configures_client redskyapi.example_config None
           (Some (redskyapi.mkRoundTripper "default"))).
  reflexivity.
Defined.

(** ** The generated deep copies *)

Ltac take_apart H :=
  repeat match type of H with
  | mbind _ ?m = Some _ =>
      let E := fresh "E" in destruct m eqn:E; simpl in H; [|discriminate H]
  end;
  injection H as <-.

Section DeepCopyMore.
Import deepcopy.
Context {K : K8s} {D : K8sDeepCopy} {L : K8sLaws}.
#[local] Open Scope nat_scope.
#[local] Open Scope list_scope.

(** Every [DeepCopyInto] shown to copy gives an independent copy. *)
Lemma copies_independent {T V : Type} (rd : heap -> T -> option V) (f : T -> M T)
  `{!Wf rd} `{!Copies rd f} (h : heap) (x : T) (v : V) :
  rd h x = Some v ->
  exists y h', f x h = Some (y, h') /\ independent_copy rd h x h' y v.
Proof.
  intros Hr. destruct (copies h x v Hr) as (y & h' & Hrun & Hext & Hc).
  exists y, h'. split; [done|]. split; [done|]. split; [|done].
  eapply confined_agree; [by apply wf|apply Hext].
Qed.

(** What independence means for writes. *)
Lemma independent_copy_writes {T V : Type} (rd : heap -> T -> option V) (h : heap) (x : T)
  (h' : heap) (y : T) (v : V) :
  independent_copy rd h x h' y v ->
  (forall l c, length h <= l -> rd (<[l := c]> h') x = Some v) /\
  (forall l c, l < length h -> rd (<[l := c]> h') y = Some v).
Proof.
  intros (_ & Hx & Hy). split; intros l c Hl.
  - apply Hx, agree_insert. lia.
  - apply Hy, agree_insert. lia.
Qed.

(** X6. [DeepCopyInto] of an experiment that denotes a value runs without
    fault and gives an independent copy: the copy denotes the same value,
    no cell that existed is written, and afterwards a write to any cell of
    the copy leaves the experiment, a write to any cell of the experiment
    leaves the copy. *)
Theorem Experiment_DeepCopyInto_is_deep (h : heap) (x : Experiment ref ExtH)
  (v : Experiment option ExtV) :
  read_Experiment h x = Some v ->
  exists y h',
    Experiment_DeepCopyInto x h = Some (y, h') /\
    independent_copy read_Experiment h x h' y v /\
    (forall l c, length h <= l -> read_Experiment (<[l := c]> h') x = Some v) /\
    (forall l c, l < length h -> read_Experiment (<[l := c]> h') y = Some v).
Proof.
  intros Hr.
  destruct (copies_independent read_Experiment Experiment_DeepCopyInto h x v Hr)
    as (y & h' & Hrun & Hind).
  exists y, h'. split; [done|]. split; [done|]. by apply independent_copy_writes.
Qed.

(** A slice and its copy: nil together, the array of the copy new and of
    the same length. *)
Lemma slice_copy_shape (t : Tag) {V : Type} (rd : heap -> tyOf t -> option V)
  (h h' : heap) (s s' : option loc) (w : option (list V)) :
  read_slice t rd h s = Some w ->
  confined (read_slice t rd) (length h) (length h') h' s' w ->
  (s' = None <-> s = None) /\
  (forall l', s' = Some l' -> length h <= l' < length h') /\
  length <$> backing t h' s' = length <$> backing t h s.
Proof.
  intros Hr Hc. pose proof (confined_read _ _ _ _ _ _ Hc) as Hr'.
  destruct s as [l|], s' as [l'|].
  - apply read_slice_inv in Hr as (c & a & vs & Hl & Ha & Hall & ->).
    pose proof (confined_slice_window _ _ _ _ _ _ _ Hc) as Hwin.
    apply read_slice_inv in Hr' as (c' & a' & vs' & Hl' & Ha' & Hall' & [= <-]).
    split; [done|]. split; [by intros ? [= <-]|].
    simpl. rewrite Hl, Hl', Ha, Ha'. simpl.
    by rewrite (Forall2_length Hall), (Forall2_length Hall').
  - apply read_slice_inv in Hr as (c & a & vs & _ & _ & _ & ->). discriminate Hr'.
  - injection Hr as <-.
    apply read_slice_inv in Hr' as (c' & a' & vs' & _ & _ & _ & ?). discriminate.
  - done.
Qed.

Lemma read_TrialList_fields (h : heap) (x : TrialList ref ExtH) (v : TrialList option ExtV) :
  read_TrialList h x = Some v ->
  TrialList_TypeMeta v = TrialList_TypeMeta x /\
  read_slice TTrial read_Trial h (TrialList_Items x) = Some (TrialList_Items v).
Proof. intros Hr. unfold read_TrialList in Hr. take_apart Hr. done. Qed.

Lemma read_ExperimentList_fields (h : heap) (x : ExperimentList ref ExtH)
  (v : ExperimentList option ExtV) :
  read_ExperimentList h x = Some v ->
  ExperimentList_TypeMeta v = ExperimentList_TypeMeta x /\
  read_slice TExperiment read_Experiment h (ExperimentList_Items x)
    = Some (ExperimentList_Items v).
Proof. intros Hr. unfold read_ExperimentList in Hr. take_apart Hr. done. Qed.

(** X7. [DeepCopyInto] of a list of trials, and of a list of experiments,
    gives an independent copy with the same type meta; its [Items] is nil
    exactly when the original's is, and otherwise is a new array of the
    same length. *)
Theorem lists_DeepCopyInto_copy_items (h : heap) :
  (forall x v, read_TrialList h x = Some v ->
     exists y h',
       TrialList_DeepCopyInto x h = Some (y, h') /\
       independent_copy read_TrialList h x h' y v /\
       TrialList_TypeMeta y = TrialList_TypeMeta x /\
       (TrialList_Items y = None <-> TrialList_Items x = None) /\
       (forall l', TrialList_Items y = Some l' -> length h <= l' < length h') /\
       length <$> backing TTrial h' (TrialList_Items y)
         = length <$> backing TTrial h (TrialList_Items x)) /\
  (forall x v, read_ExperimentList h x = Some v ->
     exists y h',
       ExperimentList_DeepCopyInto x h = Some (y, h') /\
       independent_copy read_ExperimentList h x h' y v /\
       ExperimentList_TypeMeta y = ExperimentList_TypeMeta x /\
       (ExperimentList_Items y = None <-> ExperimentList_Items x = None) /\
       (forall l', ExperimentList_Items y = Some l' -> length h <= l' < length h') /\
       length <$> backing TExperiment h' (ExperimentList_Items y)
         = length <$> backing TExperiment h (ExperimentList_Items x)).
Proof.
  split; intros x v Hr.
  - destruct (copies_independent read_TrialList TrialList_DeepCopyInto h x v Hr)
      as (y & h' & Hrun & Hind).
    exists y, h'. split; [done|]. split; [done|].
    destruct Hind as (_ & _ & Hy).
    destruct (read_TrialList_fields h x v Hr) as [Hmeta Hitems].
    destruct (read_TrialList_fields h' y v (confined_read _ _ _ _ _ _ Hy)) as [Hmeta' _].
    split; [congruence|].
    apply (slice_copy_shape TTrial read_Trial h h' _ _ _ Hitems).
    intros h'' Hag. apply (read_TrialList_fields h'' y v (Hy h'' Hag)).
  - destruct (copies_independent read_ExperimentList ExperimentList_DeepCopyInto h x v Hr)
      as (y & h' & Hrun & Hind).
    exists y, h'. split; [done|]. split; [done|].
    destruct Hind as (_ & _ & Hy).
    destruct (read_ExperimentList_fields h x v Hr) as [Hmeta Hitems].
    destruct (read_ExperimentList_fields h' y v (confined_read _ _ _ _ _ _ Hy))
      as [Hmeta' _].
    split; [congruence|].
    apply (slice_copy_shape TExperiment read_Experiment h h' _ _ _ Hitems).
    intros h'' Hag. apply (read_ExperimentList_fields h'' y v (Hy h'' Hag)).
Qed.

Lemma DeepCopyObject_spec (t : Tag) {V : Type} (rd : heap -> tyOf t -> option V)
  (f : tyOf t -> M (tyOf t)) `{!Wf rd} `{!Copies rd f} (h : heap) :
  copies_object t rd (DeepCopyObject t (DeepCopy t f)) h /\
  (forall p o h', DeepCopyObject t (DeepCopy t f) p h = Some (o, h') ->
     forall t', o <> Some (t', None)).
Proof.
  split; [split|].
  - reflexivity.
  - intros p w Hr.
    pose proof Hr as Hr0.
    apply read_ptr_inv in Hr as (c & x & v & Hp & Hc & Hx & ->).
    destruct (DeepCopy_spec t rd f h p c x v Hp Hc Hx)
      as (r & h' & Hrun & -> & Hext & y & Hq & Hy).
    exists h'. split; [|split; [done|]].
    + unfold DeepCopyObject, mbind, M_bind. by rewrite Hrun.
    + apply (read_ptr_intro t rd h' (length h) (inj t [y]) y v);
        [done|apply proj_inj|by eapply confined_read].
  - intros p o h'. unfold DeepCopyObject, mbind, M_bind.
    destruct (DeepCopy t f p h) as [[[l|] h1]|]; [| |done]; intros [= <- <-] t'; done.
Qed.

(** X8. [DeepCopyObject] of a trial, a list of trials, an experiment and a
    list of experiments returns the nil interface on a nil receiver; on a
    receiver that denotes a value, an interface of the receiver's type with
    a new pointer that denotes that value, no cell written; and never an
    interface that holds a nil pointer. *)
Theorem DeepCopyObject_never_holds_nil (h : heap) :
  (copies_object TTrial read_Trial Trial_DeepCopyObject h /\
   copies_object TTrialList read_TrialList TrialList_DeepCopyObject h /\
   copies_object TExperiment read_Experiment Experiment_DeepCopyObject h /\
   copies_object TExperimentList read_ExperimentList ExperimentList_DeepCopyObject h) /\
  (forall o h' t',
     (forall p, Trial_DeepCopyObject p h = Some (o, h') -> o <> Some (t', None)) /\
     (forall p, TrialList_DeepCopyObject p h = Some (o, h') -> o <> Some (t', None)) /\
     (forall p, Experiment_DeepCopyObject p h = Some (o, h') -> o <> Some (t', None)) /\
     (forall p, ExperimentList_DeepCopyObject p h = Some (o, h') -> o <> Some (t', None))).
Proof.
  split.
  - repeat split; try apply DeepCopyObject_spec; apply _.
  - intros o h' t'. split; [|split; [|split]]; intros p Hrun.
    + exact (proj2 (DeepCopyObject_spec TTrial read_Trial Trial_DeepCopyInto h)
               p o h' Hrun t').
    + exact (proj2 (DeepCopyObject_spec TTrialList read_TrialList TrialList_DeepCopyInto h)
               p o h' Hrun t').
    + exact (proj2 (DeepCopyObject_spec TExperiment read_Experiment
                      Experiment_DeepCopyInto h) p o h' Hrun t').
    + exact (proj2 (DeepCopyObject_spec TExperimentList read_ExperimentList
                      ExperimentList_DeepCopyInto h) p o h' Hrun t').
Qed.

(** [copy_slice] on a slice that is not nil: one cell is allocated, with the
    elements of the backing array. *)
Lemma copy_slice_exact (t : Tag) (h : heap) (src : loc) (c : cell) (a : list (tyOf t)) :
  h !! src = Some c -> proj t c = Some a ->
  copy_slice t (Some src) h = Some (Some (length h), h ++ [inj t a]).
Proof.
  intros Hsrc Hc.
  assert (Hwp : wp (copy_slice t (Some src)) h
            (fun r h' => r = Some (length h) /\ h' = h ++ [inj t a])).
  { simpl. apply wp_bind. eapply wp_len; [done..|].
    apply wp_bind. apply wp_make. apply wp_bind. unfold copy.
    apply wp_bind. eapply wp_fetch; [|done|].
    { rewrite lookup_app_l; [done|by eapply lookup_lt_Some]. }
    apply wp_bind. eapply wp_fetch; [|apply proj_inj|].
    { by rewrite list_lookup_middle. }
    rewrite length_replicate, Nat.min_id, take_ge, drop_ge, app_nil_r
      by (rewrite ?length_replicate; lia).
    apply wp_put; [rewrite length_app; simpl; lia|].
    apply wp_ret. split; [done|].
    rewrite insert_app_r_alt, Nat.sub_diag by lia. done. }
  destruct Hwp as (r & h' & Hrun & -> & ->). done.
Qed.

(** X9. [DeepCopyInto] of a patch operation: with a nil [Data] it returns
    the operation as it is and allocates nothing; otherwise it allocates
    exactly one cell, holding the bytes of [Data], and returns the operation
    with its [Data] at that cell and every other field as it was. *)
Theorem PatchOperation_DeepCopyInto_exact (h : heap) (x : PatchOperation ref) :
  match Data x with
  | None => PatchOperation_DeepCopyInto x h = Some (x, h)
  | Some l =>
      forall bytes, backing TByte h (Some l) = Some bytes ->
        PatchOperation_DeepCopyInto x h =
          Some (mkPatchOperation ref (TargetRef x) (PatchType x) (Some (length h))
                  (AttemptsRemaining x),
                h ++ [inj TByte bytes])
  end.
Proof.
  destruct (Data x) as [l|] eqn:HD.
  - intros bytes Hb. unfold backing in Hb.
    destruct (h !! l) as [c|] eqn:Hl; [|done].
    unfold PatchOperation_DeepCopyInto. rewrite HD. unfold mbind, M_bind.
    by rewrite (copy_slice_exact TByte h l c bytes Hl Hb).
  - unfold PatchOperation_DeepCopyInto. rewrite HD.
    destruct x; simpl in *; by subst.
Qed.

(** X10. [DeepCopyInto] of a setup task gives [Command] and [Args] an array
    each, the first two cells allocated, also when the two are one and the
    same array in the original: the copy shares no array between them. *)
Theorem SetupTask_DeepCopyInto_unshares (h : heap) (x : SetupTask ref ExtH)
  (v : SetupTask option ExtV) (l1 l2 : loc) :
  read_SetupTask h x = Some v ->
  Command x = Some l1 -> Args x = Some l2 ->
  exists y h',
    SetupTask_DeepCopyInto x h = Some (y, h') /\
    read_SetupTask h' y = Some v /\
    Command y = Some (length h) /\
    Args y = Some (S (length h)) /\
    Command y <> Args y.
Proof.
  intros Hr Hcmd Hargs.
  destruct (copies h x v Hr) as (y & h' & Hrun & Hext & Hconf).
  exists y, h'. split; [done|]. split; [by eapply confined_read|].
  assert (Hfields : exists c1 a1 c2 a2,
            h !! l1 = Some c1 /\ proj TString c1 = Some a1 /\
            h !! l2 = Some c2 /\ proj TString c2 = Some a2).
  { unfold read_SetupTask in Hr. take_apart Hr.
    match goal with
    | E : @read_slice _ _ _ _ h (Command x) = Some _ |- _ =>
        rewrite Hcmd in E; apply read_slice_inv in E as (c1 & a1 & ? & ? & ? & _ & _)
    end.
    match goal with
    | E : @read_slice _ _ _ _ h (Args x) = Some _ |- _ =>
        rewrite Hargs in E; apply read_slice_inv in E as (c2 & a2 & ? & ? & ? & _ & _)
    end.
    by exists c1, a1, c2, a2. }
  destruct Hfields as (c1 & a1 & c2 & a2 & Hl1 & Ha1 & Hl2 & Ha2).
  unfold SetupTask_DeepCopyInto in Hrun. rewrite Hcmd, Hargs in Hrun.
  unfold mbind, M_bind in Hrun.
  rewrite (copy_slice_exact TString h l1 c1 a1 Hl1 Ha1) in Hrun.
  rewrite (copy_slice_exact TString (h ++ [inj TString a1]) l2 c2 a2) in Hrun;
    [|rewrite lookup_app_l; [done|by eapply lookup_lt_Some]|done].
  repeat match type of Hrun with
  | match ?m with _ => _ end = Some _ =>
      destruct m as [[? ?]|]; [|discriminate Hrun]
  end.
  injection Hrun as <- <-. simpl.
  rewrite length_app. simpl. rewrite Nat.add_1_r.
  repeat split. intros [= Heq]. lia.
Qed.

(** X11. Copying a copy: [DeepCopyInto] of a trial, then of the result,
    gives three trials that denote the same value by three ranges of cells
    that do not meet: those of the first heap, those the first copy
    allocated, those the second copy allocated. *)
Theorem Trial_DeepCopyInto_twice (h : heap) (x : Trial ref ExtH) (v : Trial option ExtV) :
  read_Trial h x = Some v ->
  exists y h1 z h2,
    Trial_DeepCopyInto x h = Some (y, h1) /\
    Trial_DeepCopyInto y h1 = Some (z, h2) /\
    length h <= length h1 <= length h2 /\
    confined read_Trial 0 (length h) h2 x v /\
    confined read_Trial (length h) (length h1) h2 y v /\
    confined read_Trial (length h1) (length h2) h2 z v.
Proof.
  intros Hr.
  destruct (copies_independent read_Trial Trial_DeepCopyInto h x v Hr)
    as (y & h1 & Hrun1 & Hext1 & Hx & Hy).
  destruct (copies_independent read_Trial Trial_DeepCopyInto h1 y v
              (confined_read _ _ _ _ _ _ Hy))
    as (z & h2 & Hrun2 & Hext2 & _ & Hz).
  exists y, h1, z, h2. split; [done|]. split; [done|].
  pose proof (proj1 Hext1). pose proof (proj1 Hext2).
  split; [lia|]. split; [|split; [|done]].
  - eapply confined_agree; [done|]. eapply agree_weaken; [apply Hext2|lia..].
  - eapply confined_agree; [done|]. eapply agree_weaken; [apply Hext2|lia..].
Qed.



(** X13. Each of the 31 generated [DeepCopyInto] is a deep copy: on a value
    that is readable it runs without fault, writes no cell that existed,
    and returns a value that denotes the same by the cells it has allocated
    alone. *)
Theorem every_DeepCopyInto_is_deep (h : heap) :
  deep_copy plain Assignment_DeepCopyInto h /\
  deep_copy plain ConfigMapHelmValuesFromSource_DeepCopyInto h /\
  deep_copy read_Constraint Constraint_DeepCopyInto h /\
  deep_copy read_Experiment Experiment_DeepCopyInto h /\
  deep_copy read_ExperimentList ExperimentList_DeepCopyInto h /\
  deep_copy read_ExperimentSpec ExperimentSpec_DeepCopyInto h /\
  deep_copy plain ExperimentStatus_DeepCopyInto h /\
  deep_copy read_HelmValue HelmValue_DeepCopyInto h /\
  deep_copy read_HelmValueSource HelmValueSource_DeepCopyInto h /\
  deep_copy read_HelmValuesFromSource HelmValuesFromSource_DeepCopyInto h /\
  deep_copy read_Metric Metric_DeepCopyInto h /\
  deep_copy read_NamespaceTemplateSpec NamespaceTemplateSpec_DeepCopyInto h /\
  deep_copy plain Optimization_DeepCopyInto h /\
  deep_copy plain OrderConstraint_DeepCopyInto h /\
  deep_copy plain Parameter_DeepCopyInto h /\
  deep_copy plain ParameterSelector_DeepCopyInto h /\
  deep_copy read_PatchOperation PatchOperation_DeepCopyInto h /\
  deep_copy plain PatchReadinessGate_DeepCopyInto h /\
  deep_copy read_PatchTemplate PatchTemplate_DeepCopyInto h /\
  deep_copy read_ReadinessCheck ReadinessCheck_DeepCopyInto h /\
  deep_copy read_SetupTask SetupTask_DeepCopyInto h /\
  deep_copy read_SumConstraint SumConstraint_DeepCopyInto h /\
  deep_copy read_SumConstraintParameter SumConstraintParameter_DeepCopyInto h /\
  deep_copy read_Trial Trial_DeepCopyInto h /\
  deep_copy plain TrialCondition_DeepCopyInto h /\
  deep_copy read_TrialList TrialList_DeepCopyInto h /\
  deep_copy read_TrialReadinessGate TrialReadinessGate_DeepCopyInto h /\
  deep_copy read_TrialSpec TrialSpec_DeepCopyInto h /\
  deep_copy read_TrialStatus TrialStatus_DeepCopyInto h /\
  deep_copy read_TrialTemplateSpec TrialTemplateSpec_DeepCopyInto h /\
  deep_copy plain Value_DeepCopyInto h.
Proof.
  repeat apply conj; intros x v Hr;
    match goal with
    | |- exists y h', ?f x h = _ /\ independent_copy ?rd _ _ _ _ _ =>
        exact (copies_independent rd f h x v Hr)
    end.
Qed.

End DeepCopyMore.

Section DeepCopyMoreExamples.
Import deepcopy.
#[local] Existing Instance boxes.
#[local] Existing Instance boxes_DeepCopy.
#[local] Existing Instance boxes_laws.
#[local] Open Scope nat_scope.
#[local] Open Scope list_scope.

Lemma Experiment_DeepCopyInto_is_deep_witness :
  exists v y h',
    read_Experiment example_experiment_heap example_experiment = Some v /\
    Experiment_DeepCopyInto example_experiment example_experiment_heap = Some (y, h') /\
    independent_copy read_Experiment example_experiment_heap example_experiment h' y v.
Proof.
  eexists.
  assert (Hr : read_Experiment example_experiment_heap example_experiment = Some _)
    by (vm_compute; reflexivity).
  destruct (Experiment_DeepCopyInto_is_deep example_experiment_heap example_experiment _ Hr)
    as (y & h' & Hrun & Hind & _).
  exists y, h'. repeat split; try assumption; apply Hind.
Defined.

Lemma lists_DeepCopyInto_copy_items_witness :
  exists v y h',
    read_TrialList example_list_heap example_list = Some v /\
    TrialList_DeepCopyInto example_list example_list_heap = Some (y, h') /\
    TrialList_TypeMeta y = TrialList_TypeMeta example_list /\
    length <$> backing TTrial h' (TrialList_Items y) = Some 2.
Proof.
  eexists.
  assert (Hr : read_TrialList example_list_heap example_list = Some _)
    by (vm_compute; reflexivity).
  destruct (proj1 (lists_DeepCopyInto_copy_items example_list_heap) example_list _ Hr)
    as (y & h' & Hrun & _ & Hmeta & _ & _ & Hlen).
  exists y, h'. repeat split; assumption.
Defined.

Lemma DeepCopyObject_never_holds_nil_witness :
  exists w h',
    read_ptr TTrial read_Trial example_heap (Some 0) = Some w /\
    Trial_DeepCopyObject (Some 0) example_heap = Some (Some (TTrial, Some 10), h') /\
    read_ptr TTrial read_Trial h' (Some 10) = Some w /\
    Trial_DeepCopyObject None example_heap = Some (None, example_heap).
Proof.
  eexists.
  assert (Hr : read_ptr TTrial read_Trial example_heap (Some 0) = Some _)
    by (vm_compute; reflexivity).
  destruct (proj1 (proj1 (DeepCopyObject_never_holds_nil example_heap))) as [Hnil Hcopy].
  destruct (Hcopy 0 _ Hr) as (h' & Hrun & _ & Hr').
  exists h'. repeat split; assumption.
Defined.

Lemma PatchOperation_DeepCopyInto_exact_witness :
  backing TByte example_heap (Some 4) = Some [x5b; x5d] /\
  PatchOperation_DeepCopyInto example_operation example_heap =
    Some (mkPatchOperation ref zeroObjectReference "application/json-patch+json" (Some 10)
            0%Z,
          example_heap ++ [inj TByte [x5b; x5d]]).
Proof.
  split; [reflexivity|].
  apply (PatchOperation_DeepCopyInto_exact example_heap example_operation [x5b; x5d]).
  reflexivity.
Defined.

Lemma SetupTask_DeepCopyInto_unshares_witness :
  Command shared_task = Args shared_task /\
  exists v y h',
    read_SetupTask shared_task_heap shared_task = Some v /\
    SetupTask_DeepCopyInto shared_task shared_task_heap = Some (y, h') /\
    read_SetupTask h' y = Some v /\
    Command y = Some 1 /\ Args y = Some 2.
Proof.
  split; [reflexivity|].
  eexists.
  assert (Hr : read_SetupTask shared_task_heap shared_task = Some _)
    by (vm_compute; reflexivity).
  destruct (SetupTask_DeepCopyInto_unshares shared_task_heap shared_task _ 0 0 Hr
              eq_refl eq_refl)
    as (y & h' & Hrun & Hr' & Hc & Ha & _).
  exists y, h'. repeat split; assumption.
Defined.

Lemma Trial_DeepCopyInto_twice_witness :
  exists v y h1 z h2,
    read_Trial example_heap example_trial = Some v /\
    Trial_DeepCopyInto example_trial example_heap = Some (y, h1) /\
    Trial_DeepCopyInto y h1 = Some (z, h2) /\
    confined read_Trial 0 10 h2 example_trial v /\
    confined read_Trial 10 (length h1) h2 y v /\
    confined read_Trial (length h1) (length h2) h2 z v.
Proof.
  eexists.
  assert (Hr : read_Trial example_heap example_trial = Some _) by (vm_compute; reflexivity).
  destruct (Trial_DeepCopyInto_twice example_heap example_trial _ Hr)
    as (y & h1 & z & h2 & Hrun1 & Hrun2 & _ & Hx & Hy & Hz).
  exists y, h1, z, h2. repeat split; assumption.
Defined.


Lemma every_DeepCopyInto_is_deep_witness :
  exists v y h',
    read_SetupTask shared_task_heap shared_task = Some v /\
    SetupTask_DeepCopyInto shared_task shared_task_heap = Some (y, h') /\
    independent_copy read_SetupTask shared_task_heap shared_task h' y v.
Proof.
  eexists.
  assert (Hr : read_SetupTask shared_task_heap shared_task = Some _)
    by (vm_compute; reflexivity).
  pose proof (every_DeepCopyInto_is_deep shared_task_heap) as Hall.
  do 20 (destruct Hall as [_ Hall]). destruct Hall as [Htask _].
  destruct (Htask shared_task _ Hr) as (y & h' & Hrun & Hind).
  exists y, h'. repeat split; try assumption; apply Hind.
Defined.

End DeepCopyMoreExamples.
